(** * CRUD_node: the task service of [index.ts]

    A shallow embedding of the four Express handlers ([GET /read],
    [POST /create], [POST /update], [GET /delete/:id]) together with the
    parts of the libraries they call: the JavaScript values found in
    [req.body] and [req.params], [parseInt], the express-validator chains
    named in the route declarations, and the Prisma client for the [tasks]
    table.

    Every handler awaits exactly one store call, so a request is one atomic
    step on the state of the process. *)

From Stdlib Require Import ZArith Ascii Lia.
From stdpp Require Import base gmap strings list pretty.

Local Open Scope Z_scope.

(** ** JavaScript values *)

Module JS.

(** A JavaScript number, as far as this model goes: an integer, or [NaN]
    (the result of a [parseInt] that found no digit).  Numbers with a
    fraction, and the rounding of integers beyond 2^53, are left out. *)
Inductive number :=
| NaN
| Int (z : Z).

(** The scalar values a decoded JSON body or a route parameter holds.
    [JUndefined] is what reading an absent property gives.  A JSON body can
    also hold arrays and nested objects; they are outside this model, and
    every property below speaks of requests whose fields are absent or
    scalars. *)
Inductive value :=
| JUndefined
| JNull
| JBoolean (b : bool)
| JNumber (n : number)
| JString (s : string).

#[global] Instance number_eq_dec : EqDecision number.
Proof. solve_decision. Defined.

#[global] Instance value_eq_dec : EqDecision value.
Proof. solve_decision. Defined.

(** [obj.key] on an object whose own properties are [obj]. *)
Definition get (obj : gmap string value) (key : string) : value :=
  from_option (fun v => v) JUndefined (obj !! key).

(** The abstract operation [ToString]. *)
Definition ToString (v : value) : string :=
  match v with
  | JUndefined => "undefined"
  | JNull => "null"
  | JBoolean true => "true"
  | JBoolean false => "false"
  | JNumber NaN => "NaN"
  | JNumber (Int z) => pretty z
  | JString s => s
  end.

(** *** [parseInt (string)], with no radix argument *)

(** A string is held as the bytes of its UTF-8 encoding.  [parseInt] skips
    every [WhiteSpace] and [LineTerminator] code point in front of the
    number: TAB, LF, VT, FF, CR and SP, which are one byte each; U+00A0,
    which is two bytes; and U+1680, U+2000 to U+200A, U+2028, U+2029,
    U+202F, U+205F, U+3000 and U+FEFF, which are three bytes each. *)
Definition is_white_space (c : ascii) : bool :=
  let n := Z.of_nat (nat_of_ascii c) in
  ((9 <=? n) && (n <=? 13)) || (n =? 32).

Definition is_white_space_2 (c1 c2 : ascii) : bool :=
  let n1 := Z.of_nat (nat_of_ascii c1) in
  let n2 := Z.of_nat (nat_of_ascii c2) in
  (n1 =? 194) && (n2 =? 160).

Definition is_white_space_3 (c1 c2 c3 : ascii) : bool :=
  let n1 := Z.of_nat (nat_of_ascii c1) in
  let n2 := Z.of_nat (nat_of_ascii c2) in
  let n3 := Z.of_nat (nat_of_ascii c3) in
  ((n1 =? 225) && (n2 =? 154) && (n3 =? 128))
  || ((n1 =? 226) && (n2 =? 128)
      && (((128 <=? n3) && (n3 <=? 138)) || (n3 =? 168) || (n3 =? 169)
          || (n3 =? 175)))
  || ((n1 =? 226) && (n2 =? 129) && (n3 =? 159))
  || ((n1 =? 227) && (n2 =? 128) && (n3 =? 128))
  || ((n1 =? 239) && (n2 =? 187) && (n3 =? 191)).

Fixpoint trim_start (s : string) : string :=
  match s with
  | String c1 rest1 =>
      if is_white_space c1 then trim_start rest1
      else
        match rest1 with
        | String c2 rest2 =>
            if is_white_space_2 c1 c2 then trim_start rest2
            else
              match rest2 with
              | String c3 rest3 =>
                  if is_white_space_3 c1 c2 c3 then trim_start rest3 else s
              | EmptyString => s
              end
        | EmptyString => s
        end
  | EmptyString => s
  end.

(** The value of [c] as a digit in radix [R], if it is one. *)
Definition digit_value (R : Z) (c : ascii) : option Z :=
  let n := Z.of_nat (nat_of_ascii c) in
  let d :=
    if (48 <=? n) && (n <=? 57) then Some (n - 48)
    else if (97 <=? n) && (n <=? 122) then Some (n - 87)
    else if (65 <=? n) && (n <=? 90) then Some (n - 55)
    else None in
  match d with
  | Some d => if d <? R then Some d else None
  | None => None
  end.

(** The mathematical value of the longest prefix of [s] made of radix-[R]
    digits; [acc] is [None] as long as no digit was read. *)
Fixpoint parse_digits (R : Z) (s : string) (acc : option Z) : option Z :=
  match s with
  | String c rest =>
      match digit_value R c with
      | Some d => parse_digits R rest (Some (from_option (fun a => a) 0 acc * R + d))
      | None => acc
      end
  | EmptyString => acc
  end.

Definition strip_sign (s : string) : Z * string :=
  match s with
  | String "-" rest => (-1, rest)
  | String "+" rest => (1, rest)
  | _ => (1, s)
  end.

Definition strip_radix_prefix (s : string) : Z * string :=
  match s with
  | String "0" (String "x" rest) => (16, rest)
  | String "0" (String "X" rest) => (16, rest)
  | _ => (10, s)
  end.

Definition parseInt_string (input : string) : number :=
  let '(sign, s) := strip_sign (trim_start input) in
  let '(R, s) := strip_radix_prefix s in
  match parse_digits R s None with
  | None => NaN
  | Some mathInt => Int (sign * mathInt)
  end.

Definition parseInt (v : value) : number := parseInt_string (ToString v).

End JS.

(** ** Express: the request, the response and the process state *)

Module Express.

(** [req.body] as [bodyParser.json()] leaves it (an empty object when the
    request carries no JSON) and [req.params] as the router fills it from
    the path. *)
Record Request := {
  body : gmap string JS.value;
  params : gmap string JS.value
}.

End Express.

(** ** express-validator *)

Module Validator.

Inductive Location :=
| in_body
| in_params.

(** One entry of a chain: the standard validator [notEmpty ()] or the
    sanitizer [default (default_value)]. *)
Inductive Item :=
| NotEmpty
| Default (default_value : JS.value).

Record Chain := {
  chain_location : Location;
  chain_path : string;
  chain_stack : list Item
}.

(** The error object pushed for a field that fails a validator. *)
Record FieldError := {
  value : JS.value;
  msg : string;
  path : string;
  location : Location
}.

#[global] Instance Location_eq_dec : EqDecision Location.
Proof. solve_decision. Defined.

#[global] Instance FieldError_eq_dec : EqDecision FieldError.
Proof. solve_decision. Defined.

(** [body (field)] and [param (field)]: a chain with nothing on its stack. *)
Definition body (field : string) : Chain :=
  {| chain_location := in_body; chain_path := field; chain_stack := [] |}.

Definition param (field : string) : Chain :=
  {| chain_location := in_params; chain_path := field; chain_stack := [] |}.

Definition push (i : Item) (c : Chain) : Chain :=
  {| chain_location := chain_location c;
     chain_path := chain_path c;
     chain_stack := chain_stack c ++ [i] |}.

Definition notEmpty (c : Chain) : Chain := push NotEmpty c.

(** The library's own [toString], applied to a value before a standard
    validator sees it: [undefined], [null] and [NaN] become the empty
    string. *)
Definition toString (v : JS.value) : string :=
  match v with
  | JS.JUndefined | JS.JNull | JS.JNumber JS.NaN => ""
  | _ => JS.ToString v
  end.

(** validator.js [isEmpty (str)]. *)
Definition isEmpty (str : string) : bool := bool_decide (str = "").

(** The values [default ()] replaces. *)
Definition is_defaulted (v : JS.value) : bool :=
  bool_decide (v ∈ [JS.JUndefined; JS.JNull; JS.JNumber JS.NaN; JS.JString ""]).

Definition fields (req : Express.Request) (l : Location) : gmap string JS.value :=
  match l with
  | in_body => Express.body req
  | in_params => Express.params req
  end.

Definition set_field (req : Express.Request) (l : Location) (key : string)
    (v : JS.value) : Express.Request :=
  match l with
  | in_body =>
      {| Express.body := <[key := v]> (Express.body req);
         Express.params := Express.params req |}
  | in_params =>
      {| Express.body := Express.body req;
         Express.params := <[key := v]> (Express.params req) |}
  end.

(** Runs the stack of one chain on the current value of its field: a
    validator that fails adds an error and goes on, a sanitizer replaces
    the value. *)
Fixpoint run_stack (l : Location) (key : string) (stack : list Item)
    (v : JS.value) : JS.value * list FieldError :=
  match stack with
  | [] => (v, [])
  | NotEmpty :: rest =>
      let '(v', errs) := run_stack l key rest v in
      if isEmpty (toString v)
      then (v', {| value := v; msg := "Invalid value"; path := key; location := l |} :: errs)
      else (v', errs)
  | Default d :: rest =>
      run_stack l key rest (if is_defaulted v then d else v)
  end.

(** One chain used as a middleware: the sanitized value is written back to
    the request only when it differs from the one read. *)
Definition run_chain (c : Chain) (req : Express.Request)
    : Express.Request * list FieldError :=
  let l := chain_location c in
  let key := chain_path c in
  let v := JS.get (fields req l) key in
  let '(v', errs) := run_stack l key (chain_stack c) v in
  (if decide (v' = v) then req else set_field req l key v', errs).

(** The chains of a route run in order; [validationResult (req)] is the
    list of all their errors. *)
Fixpoint run_chains (cs : list Chain) (req : Express.Request)
    : Express.Request * list FieldError :=
  match cs with
  | [] => (req, [])
  | c :: rest =>
      let '(req1, errs1) := run_chain c req in
      let '(req2, errs2) := run_chains rest req1 in
      (req2, errs1 ++ errs2)
  end.

(** [default (default_value)], declared last so that the list library's
    function of the same name stays usable above. *)
Definition default (default_value : JS.value) (c : Chain) : Chain :=
  push (Default default_value) c.

End Validator.

(** ** The Prisma client of the [tasks] table *)

(** The client checks the arguments of a call against the types of the
    columns before it reaches the database and throws when they do not fit;
    an argument that is [undefined] counts as not given; [update] and
    [delete] throw when no record has the [id] asked for.  The table is
    assumed reachable: a lost connection is not modelled. *)

Module Prisma.

(** Modelled from the spec: the schema of the [tasks] table (the Prisma
    schema file is not among the sources).  A Task has an integer [id],
    unique and assigned by the store on creation, a text [name] (required),
    a text [info] (empty string by default) and a boolean [isDone] (false by
    default). *)
Record Task := {
  id : Z;
  name : string;
  info : string;
  isDone : bool
}.

#[global] Instance Task_eq_dec : EqDecision Task.
Proof. solve_decision. Defined.

(** The table, in the order the store lists it, and the next value of the
    [id] sequence. *)
Record Store := {
  rows : list Task;
  next_id : Z
}.

(** What a rejected call throws: the client refused the arguments
    ([PrismaClientValidationError]) or the record to update or delete does
    not exist. *)
Inductive Error :=
| ValidationError
| RecordNotFound.

#[global] Instance Error_eq_dec : EqDecision Error.
Proof. solve_decision. Defined.

(** The [data] of [create] and [update]: the three expressions the
    handlers put there. *)
Record Data := {
  data_name : JS.value;
  data_info : JS.value;
  data_isDone : JS.value
}.

(** Argument checks against the column types.  [undefined] stands for an
    argument that is not given. *)
Definition as_Int (v : JS.value) : option Z :=
  match v with
  | JS.JNumber (JS.Int z) => Some z
  | _ => None
  end.

Definition as_String (v : JS.value) : option string :=
  match v with
  | JS.JString s => Some s
  | _ => None
  end.

Definition as_Boolean (v : JS.value) : option bool :=
  match v with
  | JS.JBoolean b => Some b
  | _ => None
  end.

(** An argument of [create]: a column with a default may be left out. *)
Definition create_arg {A} (as_A : JS.value -> option A) (dflt : option A)
    (v : JS.value) : option A :=
  match v with
  | JS.JUndefined => dflt
  | _ => as_A v
  end.

(** An argument of [update]: a column that is left out keeps its value
    ([None] inside), a given one must have the column's type. *)
Definition update_arg {A} (as_A : JS.value -> option A) (v : JS.value)
    : option (option A) :=
  match v with
  | JS.JUndefined => Some None
  | _ => Some <$> as_A v
  end.

Definition has_id (n : Z) (t : Task) : bool := bool_decide (id t = n).

Definition findUnique (st : Store) (n : Z) : option Task :=
  List.find (has_id n) (rows st).

(** [prisma.tasks.findMany ({})]: the rows in the order of the store.  No
    [orderBy] is given, and where a store lists a row after an update is
    its own affair: what is stated below about a table after an update is
    stated up to the order of its rows. *)
Definition findMany (st : Store) : list Task := rows st.

(** [prisma.tasks.create ({ data })]. *)
Definition create (st : Store) (data : Data) : Error + Store * Task :=
  match create_arg as_String None (data_name data),
        create_arg as_String (Some "") (data_info data),
        create_arg as_Boolean (Some false) (data_isDone data) with
  | Some n, Some i, Some d =>
      let t := {| id := next_id st; name := n; info := i; isDone := d |} in
      inr ({| rows := rows st ++ [t]; next_id := next_id st + 1 |}, t)
  | _, _, _ => inl ValidationError
  end.

(** [prisma.tasks.update ({ where: { id }, data })].  The row is rewritten
    where it stands; a store may list it elsewhere afterwards (see
    [findMany]). *)
Definition update (st : Store) (where_id : JS.value) (data : Data)
    : Error + Store * Task :=
  match as_Int where_id,
        update_arg as_String (data_name data),
        update_arg as_String (data_info data),
        update_arg as_Boolean (data_isDone data) with
  | Some n, Some on, Some oi, Some od =>
      match findUnique st n with
      | Some old =>
          let t := {| id := id old;
                      name := from_option (fun x => x) (name old) on;
                      info := from_option (fun x => x) (info old) oi;
                      isDone := from_option (fun x => x) (isDone old) od |} in
          inr ({| rows := (fun r => if has_id n r then t else r) <$> rows st;
                  next_id := next_id st |}, t)
      | None => inl RecordNotFound
      end
  | _, _, _, _ => inl ValidationError
  end.

(** [prisma.tasks.delete ({ where: { id } })]. *)
Definition delete (st : Store) (where_id : JS.value) : Error + Store * Task :=
  match as_Int where_id with
  | Some n =>
      match findUnique st n with
      | Some old =>
          inr ({| rows := filter (fun r => id r ≠ n) (rows st);
                  next_id := next_id st |}, old)
      | None => inl RecordNotFound
      end
  | None => inl ValidationError
  end.

End Prisma.

(** ** The application *)

(** What a handler sends: the status and the JSON it serialises. *)
Inductive Json :=
| TaskJson (t : Prisma.Task)
| TaskArray (ts : list Prisma.Task)
| ErrorsJson (errors : list Validator.FieldError)
| PrismaErrorJson (err : Prisma.Error).

Record Response := {
  status : nat;
  sent : Json
}.

(** The state of the process a request can change: the table behind the
    module-level [prisma] client and what [console.log] printed. *)
Record World := {
  prisma : Prisma.Store;
  console : list Prisma.Task
}.

(** [res.json (x)] and [res.send (x)] keep the default status. *)
Definition json (x : Json) : Response := {| status := 200; sent := x |}.

Definition status_json (code : nat) (x : Json) : Response :=
  {| status := code; sent := x |}.

Definition with_prisma (w : World) (st : Prisma.Store) : World :=
  {| prisma := st; console := console w |}.

Definition console_log (w : World) (t : Prisma.Task) : World :=
  {| prisma := prisma w; console := console w ++ [t] |}.

Definition create_chains : list Validator.Chain :=
  [Validator.notEmpty (Validator.body "name");
   Validator.default (JS.JString "") (Validator.body "info");
   Validator.default (JS.JBoolean false) (Validator.body "isDone")].

Definition update_chains : list Validator.Chain :=
  [Validator.body "name"; Validator.body "info"; Validator.body "isDone"].

Definition delete_chains : list Validator.Chain :=
  [Validator.notEmpty (Validator.param "id")].

(** [app.get ('/read', ...)]. *)
Definition handler_read (w : World) (req0 : Express.Request) : World * Response :=
  let tasks := Prisma.findMany (prisma w) in
  (w, json (TaskArray tasks)).

(** [app.post ('/create', ...)]. *)
Definition handler_create (w : World) (req0 : Express.Request) : World * Response :=
  let '(req, result) := Validator.run_chains create_chains req0 in
  if negb (bool_decide (result = []))
  then (w, status_json 404 (ErrorsJson result))
  else
    match Prisma.create (prisma w)
            {| Prisma.data_name := JS.get (Express.body req) "name";
               Prisma.data_info := JS.get (Express.body req) "info";
               Prisma.data_isDone := JS.get (Express.body req) "isDone" |} with
    | inr (st, result) => (console_log (with_prisma w st) result, json (TaskJson result))
    | inl err => (w, status_json 500 (PrismaErrorJson err))
    end.

(** [app.post ('/update', ...)]. *)
Definition handler_update (w : World) (req0 : Express.Request) : World * Response :=
  let '(req, result) := Validator.run_chains update_chains req0 in
  if negb (bool_decide (result = []))
  then (w, json (ErrorsJson result))
  else
    match Prisma.update (prisma w) (JS.get (Express.body req) "id")
            {| Prisma.data_name := JS.get (Express.body req) "name";
               Prisma.data_info := JS.get (Express.body req) "info";
               Prisma.data_isDone := JS.get (Express.body req) "isDone" |} with
    | inr (st, result) => (with_prisma w st, json (TaskJson result))
    | inl err => (w, status_json 500 (PrismaErrorJson err))
    end.

(** [app.get ('/delete/:id', ...)]. *)
Definition handler_delete (w : World) (req0 : Express.Request) : World * Response :=
  let '(req, result) := Validator.run_chains delete_chains req0 in
  if negb (bool_decide (result = []))
  then (w, json (ErrorsJson result))
  else
    match Prisma.delete (prisma w)
            (JS.JNumber (JS.parseInt (JS.get (Express.params req) "id"))) with
    | inr (st, result) => (with_prisma w st, json (TaskJson result))
    | inl err => (w, status_json 500 (PrismaErrorJson err))
    end.

(** The request bodies the routes document in their [@swagger]
    annotations: the type of each property, none of them required. *)
Inductive SchemaType :=
| type_integer
| type_string
| type_boolean.

Definition has_type (ty : SchemaType) (v : JS.value) : bool :=
  match ty, v with
  | type_integer, JS.JNumber (JS.Int _) => true
  | type_string, JS.JString _ => true
  | type_boolean, JS.JBoolean _ => true
  | _, _ => false
  end.

Definition create_schema : list (string * SchemaType) :=
  [("name", type_string); ("info", type_string); ("isDone", type_boolean)].

Definition update_schema : list (string * SchemaType) :=
  [("id", type_integer); ("name", type_string); ("info", type_string);
   ("isDone", type_boolean)].

(** A body conforms to a schema when each property it holds has the type
    the schema gives it. *)
Definition conforms (schema : list (string * SchemaType))
    (obj : gmap string JS.value) : bool :=
  forallb (fun '(key, ty) => from_option (has_type ty) true (obj !! key)) schema.

(** The four routes of the router. *)
Inductive Route :=
| GET_read
| POST_create
| POST_update
| GET_delete.

Definition dispatch (r : Route) : World -> Express.Request -> World * Response :=
  match r with
  | GET_read => handler_read
  | POST_create => handler_create
  | POST_update => handler_update
  | GET_delete => handler_delete
  end.

(** The process serving a sequence of requests, and what it answered. *)
Fixpoint serve (w : World) (calls : list (Route * Express.Request))
    : World * list Response :=
  match calls with
  | [] => (w, [])
  | (r, req) :: rest =>
      let '(w1, res) := dispatch r w req in
      let '(w2, ress) := serve w1 rest in
      (w2, res :: ress)
  end.

(** ** Notions the properties are stated with *)

(** The Task the [where: { id }] of an update or a delete designates, if
    there is one. *)
Definition task_with_id (st : Prisma.Store) (where_id : JS.value) : option Prisma.Task :=
  match Prisma.as_Int where_id with
  | Some n => Prisma.findUnique st n
  | None => None
  end.

Definition ids (st : Prisma.Store) : list Z := Prisma.id <$> Prisma.rows st.

(** The table a store can be in: no two rows share an [id], and every
    [id] was drawn from the sequence. *)
Definition store_ok (st : Prisma.Store) : Prop :=
  NoDup (ids st) ∧ Forall (fun n => n < Prisma.next_id st) (ids st).

(** How often [n] is the [id] of a Task of [ts]. *)
Definition occurrences (n : Z) (ts : list Prisma.Task) : nat :=
  length (filter (fun t => Prisma.id t = n) ts).

(** The Tasks of a list response. *)
Definition listed (res : Response) : list Prisma.Task :=
  match sent res with
  | TaskArray ts => ts
  | _ => []
  end.

(** A request to [GET /delete/:id] whose parameter designates the Task of
    id [n]. *)
Definition deletes (n : Z) (call : Route * Express.Request) : bool :=
  match call with
  | (GET_delete, req) =>
      bool_decide (JS.parseInt (JS.get (Express.params req) "id") = JS.Int n)
  | _ => false
  end.

(** The error [notEmpty ()] reports for the field [key] holding [v]. *)
Definition invalid_value (l : Validator.Location) (key : string) (v : JS.value)
    : Validator.FieldError :=
  {| Validator.value := v; Validator.msg := "Invalid value";
     Validator.path := key; Validator.location := l |}.

Definition is_decimal_digit (c : ascii) : bool :=
  let n := Z.of_nat (nat_of_ascii c) in (48 <=? n) && (n <=? 57).

Fixpoint all_chars (p : ascii -> bool) (s : string) : bool :=
  match s with
  | String c rest => p c && all_chars p rest
  | EmptyString => true
  end.

(** The number a string of decimal digits denotes. *)
Fixpoint decimal_from (acc : Z) (ds : string) : Z :=
  match ds with
  | String c rest => decimal_from (acc * 10 + (Z.of_nat (nat_of_ascii c) - 48)) rest
  | EmptyString => acc
  end.

Definition decimal_value (ds : string) : Z := decimal_from 0 ds.

Definition starts_with_digit (s : string) : bool :=
  match s with
  | String c _ => is_decimal_digit c
  | EmptyString => false
  end.

(** The string of the given bytes. *)
Definition bytes (codes : list nat) : string :=
  fold_right (fun n s => String (ascii_of_nat n) s) EmptyString codes.

(** The white space of JavaScript -- TAB, LF, VT, FF, CR, SP, U+00A0,
    U+1680, U+2000 to U+200A, U+2028, U+2029, U+202F, U+205F, U+3000 and
    U+FEFF -- each in UTF-8. *)
Definition white_space : list string :=
  bytes <$> [[9]; [10]; [11]; [12]; [13]; [32]; [194; 160]; [225; 154; 128];
             [226; 128; 128]; [226; 128; 129]; [226; 128; 130];
             [226; 128; 131]; [226; 128; 132]; [226; 128; 133];
             [226; 128; 134]; [226; 128; 135]; [226; 128; 136];
             [226; 128; 137]; [226; 128; 138]; [226; 128; 168];
             [226; 128; 169]; [226; 128; 175]; [226; 129; 159];
             [227; 128; 128]; [239; 187; 191]]%nat.

(** The strings [parseInt] reads in radix 16. *)
Definition hex_marked (s : string) : bool :=
  match s with
  | String "0" (String "x" _) => true
  | String "0" (String "X" _) => true
  | _ => false
  end.

(** The two readings of the update validation that are compared below. *)
Definition update_validation_fails (req : Express.Request) : Prop :=
  (Validator.run_chains update_chains req).2 ≠ [].

Definition update_field_absent (req : Express.Request) : Prop :=
  ∃ key, key ∈ ["id"; "name"; "info"; "isDone"] ∧ Express.body req !! key = None.

(** What the sanitizer [default (d)] leaves in a field that held [v]. *)
Definition defaulted (d v : JS.value) : JS.value :=
  if Validator.is_defaulted v then d else v.

(** The [.then] and [.catch] of the update and delete handlers: what is
    answered to the outcome of the store call. *)
Definition then_catch (w : World) (outcome : Prisma.Error + Prisma.Store * Prisma.Task)
    : World * Response :=
  match outcome with
  | inr (st, result) => (with_prisma w st, json (TaskJson result))
  | inl err => (w, status_json 500 (PrismaErrorJson err))
  end.

(** An update or delete request that names an [id] no Task of [st]
    carries.  The path of a delete has a non-empty [:id] segment, as the
    route requires. *)
Definition names_unknown_id (st : Prisma.Store) (r : Route) (req : Express.Request)
    : bool :=
  match r with
  | POST_update =>
      bool_decide (task_with_id st (JS.get (Express.body req) "id") = None)
  | GET_delete =>
      let id := JS.get (Express.params req) "id" in
      negb (Validator.isEmpty (Validator.toString id))
      && bool_decide (task_with_id st (JS.JNumber (JS.parseInt id)) = None)
  | _ => false
  end.

(** The table after the Task [t] got the values of [t']. *)
Definition replaced (t t' : Prisma.Task) (st : Prisma.Store) : Prisma.Store :=
  {| Prisma.rows :=
       (fun r => if Prisma.has_id (Prisma.id t) r then t' else r) <$> Prisma.rows st;
     Prisma.next_id := Prisma.next_id st |}.

(** The table after the Task [t] was deleted. *)
Definition removed (t : Prisma.Task) (st : Prisma.Store) : Prisma.Store :=
  {| Prisma.rows := filter (fun r => Prisma.id r ≠ Prisma.id t) (Prisma.rows st);
     Prisma.next_id := Prisma.next_id st |}.

(** The Tasks a request adds to the log: the one a create answers. *)
Definition created_by (call : Route * Express.Request) (res : Response)
    : list Prisma.Task :=
  match call.1, sent res with
  | POST_create, TaskJson t => [t]
  | _, _ => []
  end.

(** A boolean, a number or a string. *)
Definition is_typed_scalar (v : JS.value) : bool :=
  match v with
  | JS.JBoolean _ | JS.JNumber _ | JS.JString _ => true
  | JS.JUndefined | JS.JNull => false
  end.

(** A body that holds, for some property of the schema, a boolean, a
    number or a string where the schema gives the property another type. *)
Definition ill_typed (schema : list (string * SchemaType))
    (obj : gmap string JS.value) : bool :=
  existsb (fun '(key, ty) =>
             is_typed_scalar (JS.get obj key)
             && negb (has_type ty (JS.get obj key))) schema.

(** The value of a hexadecimal digit, and the number a string of them
    denotes. *)
Definition hex_digit (c : ascii) : option Z :=
  let n := Z.of_nat (nat_of_ascii c) in
  if (48 <=? n) && (n <=? 57) then Some (n - 48)
  else if (97 <=? n) && (n <=? 102) then Some (n - 87)
  else if (65 <=? n) && (n <=? 70) then Some (n - 55)
  else None.

Definition is_hex_digit (c : ascii) : bool :=
  match hex_digit c with Some _ => true | None => false end.

Fixpoint hex_from (acc : Z) (hs : string) : Z :=
  match hs with
  | String c rest => hex_from (acc * 16 + from_option (fun d => d) 0 (hex_digit c)) rest
  | EmptyString => acc
  end.

Definition hex_value (hs : string) : Z := hex_from 0 hs.

Definition starts_with_hex_digit (s : string) : bool :=
  match s with
  | String c _ => is_hex_digit c
  | EmptyString => false
  end.

(** The requests of a sequence that are answered with a Task, the
    sequence being served from [w]. *)
Fixpoint answered_with_task (w : World) (calls : list (Route * Express.Request))
    : list (Route * Express.Request) :=
  match calls with
  | [] => []
  | (r, req) :: rest =>
      let '(w1, res) := dispatch r w req in
      match sent res with
      | TaskJson _ => (r, req) :: answered_with_task w1 rest
      | _ => answered_with_task w1 rest
      end
  end.

(** The values the validator takes for empty. *)
Definition blank (v : JS.value) : bool :=
  bool_decide (v ∈ [JS.JUndefined; JS.JNull; JS.JNumber JS.NaN; JS.JString ""]).

(** ** The requests and states of the examples *)

(** A [POST] with the given properties in its JSON body. *)
Definition post (properties : list (string * JS.value)) : Express.Request :=
  {| Express.body := list_to_map properties; Express.params := ∅ |}.

(** A [GET] whose path binds [:id] to [segment]. *)
Definition get_with_id (segment : string) : Express.Request :=
  {| Express.body := ∅; Express.params := {[ "id" := JS.JString segment ]} |}.

Definition get_plain : Express.Request :=
  {| Express.body := ∅; Express.params := ∅ |}.

Definition world_of (ts : list Prisma.Task) (next : Z) : World :=
  {| prisma := {| Prisma.rows := ts; Prisma.next_id := next |}; console := [] |}.

Definition empty_world : World := world_of [] 1.

Definition buy_milk : Express.Request := post [("name", JS.JString "Buy milk")].

Definition milk : Prisma.Task :=
  {| Prisma.id := 1; Prisma.name := "Buy milk"; Prisma.info := "";
     Prisma.isDone := false |}.

Definition milk_done : Prisma.Task :=
  {| Prisma.id := 1; Prisma.name := "Buy milk"; Prisma.info := "2%";
     Prisma.isDone := true |}.

Definition update_milk : Express.Request :=
  post [("id", JS.JNumber (JS.Int 1)); ("name", JS.JString "Buy milk");
        ("info", JS.JString "2%"); ("isDone", JS.JBoolean true)].

Definition task12 : Prisma.Task :=
  {| Prisma.id := 12; Prisma.name := "Twelve"; Prisma.info := "";
     Prisma.isDone := false |}.

(** ** The validation layer *)

Section validation.

Implicit Types (req : Express.Request) (v : JS.value) (key : string).

Lemma run_chain_plain l key req :
  Validator.run_chain
    {| Validator.chain_location := l; Validator.chain_path := key;
       Validator.chain_stack := [] |} req = (req, []).
Proof.
  unfold Validator.run_chain; cbn.
  by rewrite decide_True.
Qed.

Lemma run_chain_notEmpty l key req :
  Validator.run_chain
    {| Validator.chain_location := l; Validator.chain_path := key;
       Validator.chain_stack := [Validator.NotEmpty] |} req
  = (req,
     let v := JS.get (Validator.fields req l) key in
     if Validator.isEmpty (Validator.toString v)
     then [invalid_value l key v] else []).
Proof.
  unfold Validator.run_chain; cbn.
  destruct (Validator.isEmpty _); by rewrite decide_True.
Qed.

Lemma run_chain_default l key d req :
  Validator.run_chain
    {| Validator.chain_location := l; Validator.chain_path := key;
       Validator.chain_stack := [Validator.Default d] |} req
  = (let v := JS.get (Validator.fields req l) key in
     if Validator.is_defaulted v && negb (bool_decide (d = v))
     then Validator.set_field req l key d else req,
     []).
Proof.
  unfold Validator.run_chain; cbn.
  destruct (Validator.is_defaulted _); cbn.
  - by destruct (decide _); [rewrite bool_decide_eq_true_2|rewrite bool_decide_eq_false_2].
  - by rewrite decide_True.
Qed.

Lemma get_set_field_body req key key' v :
  JS.get (Express.body (Validator.set_field req Validator.in_body key v)) key'
  = if decide (key = key') then v else JS.get (Express.body req) key'.
Proof.
  unfold JS.get; cbn. rewrite lookup_insert. by destruct (decide _).
Qed.

Lemma params_set_field_body req key v :
  Express.params (Validator.set_field req Validator.in_body key v)
  = Express.params req.
Proof. done. Qed.

(** The chains of [POST /create]: one error when [name] is empty, and the
    body the handler then reads. *)
Lemma create_validation req :
  ∃ req',
    Validator.run_chains create_chains req
    = (req',
       let v := JS.get (Express.body req) "name" in
       if Validator.isEmpty (Validator.toString v)
       then [invalid_value Validator.in_body "name" v] else [])
    ∧ JS.get (Express.body req') "name" = JS.get (Express.body req) "name"
    ∧ JS.get (Express.body req') "info"
      = defaulted (JS.JString "") (JS.get (Express.body req) "info")
    ∧ JS.get (Express.body req') "isDone"
      = defaulted (JS.JBoolean false) (JS.get (Express.body req) "isDone").
Proof.
  unfold create_chains, Validator.notEmpty, Validator.default, Validator.push,
    Validator.body, defaulted.
  cbn [Validator.run_chains Validator.chain_location Validator.chain_path
       Validator.chain_stack app].
  rewrite run_chain_notEmpty, !run_chain_default.
  cbn [Validator.fields].
  eexists; split; [by rewrite !app_nil_r|].
  assert (Hstep : ∀ r k d,
    JS.get (Express.body
      (if Validator.is_defaulted (JS.get (Express.body r) k)
          && negb (bool_decide (d = JS.get (Express.body r) k))
       then Validator.set_field r Validator.in_body k d else r)) k
    = defaulted d (JS.get (Express.body r) k)).
  { intros r k d. unfold defaulted.
    destruct (Validator.is_defaulted _); cbn [andb]; [|done].
    case_bool_decide as Hd; cbn [negb]; [done|].
    by rewrite get_set_field_body, decide_True. }
  assert (Hother : ∀ r k k' d, k ≠ k' →
    JS.get (Express.body
      (if Validator.is_defaulted (JS.get (Express.body r) k)
          && negb (bool_decide (d = JS.get (Express.body r) k))
       then Validator.set_field r Validator.in_body k d else r)) k'
    = JS.get (Express.body r) k').
  { intros r k k' d Hne.
    destruct (_ && _); [|done].
    by rewrite get_set_field_body, decide_False. }
  split; [|split].
  - by rewrite !Hother.
  - rewrite Hother by done. apply Hstep.
  - rewrite Hstep. by rewrite Hother.
Qed.

(** The chains of [POST /update] name three fields and no rule. *)
Lemma update_validation req :
  Validator.run_chains update_chains req = (req, []).
Proof.
  unfold update_chains, Validator.body.
  cbn [Validator.run_chains]. by rewrite !run_chain_plain.
Qed.

(** The chain of [GET /delete/:id]. *)
Lemma delete_validation req :
  Validator.run_chains delete_chains req
  = (req,
     let v := JS.get (Express.params req) "id" in
     if Validator.isEmpty (Validator.toString v)
     then [invalid_value Validator.in_params "id" v] else []).
Proof.
  unfold delete_chains, Validator.notEmpty, Validator.push, Validator.param.
  cbn [Validator.run_chains Validator.chain_location Validator.chain_path
       Validator.chain_stack app].
  rewrite run_chain_notEmpty. cbn [Validator.fields].
  by rewrite app_nil_r.
Qed.

End validation.

(** ** The store *)

Section store.

Implicit Types (st : Prisma.Store) (t : Prisma.Task) (n : Z) (v : JS.value).

Lemma has_id_true n t : Prisma.has_id n t = true ↔ Prisma.id t = n.
Proof. unfold Prisma.has_id. apply bool_decide_eq_true. Qed.

Lemma findUnique_Some st n t :
  Prisma.findUnique st n = Some t → t ∈ Prisma.rows st ∧ Prisma.id t = n.
Proof.
  unfold Prisma.findUnique. intros H. apply find_some in H as [Hin Hid].
  split; [by apply list_elem_of_In | by apply has_id_true].
Qed.

Lemma findUnique_None st n :
  Prisma.findUnique st n = None → n ∉ ids st.
Proof.
  unfold Prisma.findUnique, ids. intros H Hin.
  apply list_elem_of_fmap in Hin as (t & -> & Hin).
  apply list_elem_of_In in Hin.
  pose proof (find_none _ _ H t Hin) as Hf.
  assert (Prisma.has_id (Prisma.id t) t = true) by by apply has_id_true.
  congruence.
Qed.

Lemma findUnique_elem st t :
  NoDup (ids st) → t ∈ Prisma.rows st →
  Prisma.findUnique st (Prisma.id t) = Some t.
Proof.
  unfold Prisma.findUnique, ids. induction (Prisma.rows st) as [|r rs IH]; intros Hnd Hin.
  - by apply elem_of_nil in Hin.
  - cbn. rewrite fmap_cons in Hnd. apply NoDup_cons in Hnd as [Hr Hnd].
    apply elem_of_cons in Hin as [->|Hin].
    + assert (Prisma.has_id (Prisma.id r) r = true) as -> by by apply has_id_true.
      done.
    + destruct (Prisma.has_id (Prisma.id t) r) eqn:Hh; [|by apply IH].
      apply has_id_true in Hh. exfalso. apply Hr. rewrite Hh.
      apply list_elem_of_fmap. eauto.
Qed.

Lemma task_with_id_Some st v t :
  task_with_id st v = Some t →
  v = JS.JNumber (JS.Int (Prisma.id t)) ∧ t ∈ Prisma.rows st
  ∧ Prisma.findUnique st (Prisma.id t) = Some t.
Proof.
  unfold task_with_id, Prisma.as_Int. intros H.
  destruct v as [| |?|[|z]|?]; try done.
  pose proof (findUnique_Some _ _ _ H) as [Hin <-]. done.
Qed.

Lemma task_with_id_None st v :
  task_with_id st v = None →
  ∀ t, t ∈ Prisma.rows st → v ≠ JS.JNumber (JS.Int (Prisma.id t)).
Proof.
  unfold task_with_id. intros H t Hin ->. cbn in H.
  apply findUnique_None in H. apply H. unfold ids.
  apply list_elem_of_fmap. eauto.
Qed.

(** *** What each call does to the table *)

Lemma create_inr st data st' t :
  Prisma.create st data = inr (st', t) →
  Prisma.id t = Prisma.next_id st
  ∧ Prisma.rows st' = Prisma.rows st ++ [t]
  ∧ Prisma.next_id st' = Prisma.next_id st + 1.
Proof.
  unfold Prisma.create. intros H.
  repeat case_match; simplify_eq. done.
Qed.

Lemma update_inr st v data st' t :
  Prisma.update st v data = inr (st', t) →
  ids st' = ids st ∧ Prisma.next_id st' = Prisma.next_id st
  ∧ v = JS.JNumber (JS.Int (Prisma.id t)).
Proof.
  unfold Prisma.update. intros H.
  destruct (Prisma.as_Int v) as [n|] eqn:Hv; [|by repeat case_match].
  destruct (Prisma.update_arg _ (Prisma.data_name _)); [|done].
  destruct (Prisma.update_arg _ (Prisma.data_info _)); [|done].
  destruct (Prisma.update_arg _ (Prisma.data_isDone _)); [|done].
  destruct (Prisma.findUnique st n) as [old|] eqn:Hf; [|done].
  apply findUnique_Some in Hf as [_ Hid].
  simplify_eq. cbn. split; [|split; [done|]].
  - unfold ids. cbn. rewrite <- list_fmap_compose.
    apply list_fmap_ext. intros i r _. cbn.
    destruct (Prisma.has_id _ r) eqn:Hh; [|done].
    apply has_id_true in Hh. by cbn.
  - destruct v as [| |?|[|z]|?]; by simplify_eq/=.
Qed.

Lemma delete_inr st v st' t :
  Prisma.delete st v = inr (st', t) →
  v = JS.JNumber (JS.Int (Prisma.id t))
  ∧ task_with_id st v = Some t
  ∧ Prisma.rows st' = filter (fun r => Prisma.id r ≠ Prisma.id t) (Prisma.rows st)
  ∧ Prisma.next_id st' = Prisma.next_id st.
Proof.
  unfold Prisma.delete, task_with_id. intros H.
  destruct (Prisma.as_Int v) as [n|] eqn:Hv; [|done].
  destruct (Prisma.findUnique st n) as [old|] eqn:Hf; [|done].
  pose proof (findUnique_Some _ _ _ Hf) as [_ Hid].
  simplify_eq. split; [|done].
  destruct v as [| |?|[|z]|?]; by simplify_eq/=.
Qed.

Lemma ids_filter st' st n :
  Prisma.rows st' = filter (fun r => Prisma.id r ≠ n) (Prisma.rows st) →
  ids st' = filter (fun m => m ≠ n) (ids st).
Proof.
  unfold ids. intros ->. induction (Prisma.rows st) as [|r rs IH]; [done|].
  rewrite fmap_cons, !filter_cons. cbn.
  destruct (decide (Prisma.id r ≠ n)); by rewrite ?fmap_cons, IH.
Qed.

(** *** The invariant of the table *)

Lemma create_store_ok st data st' t :
  store_ok st → Prisma.create st data = inr (st', t) → store_ok st'.
Proof.
  intros [Hnd Hlt] H. apply create_inr in H as (Hid & Hrows & Hnext).
  unfold store_ok, ids in *. rewrite Hrows, Hnext, fmap_app. cbn. split.
  - apply NoDup_app. split; [done|]. split; [|apply NoDup_singleton].
    intros n Hn Hn'. apply list_elem_of_singleton in Hn'. subst n.
    rewrite Forall_forall in Hlt. specialize (Hlt _ Hn). lia.
  - apply Forall_app. split.
    + eapply Forall_impl; [done|]. cbn. lia.
    + apply Forall_singleton. lia.
Qed.

Lemma update_store_ok st v data st' t :
  store_ok st → Prisma.update st v data = inr (st', t) → store_ok st'.
Proof.
  intros Hok H. apply update_inr in H as (Hids & Hnext & _).
  unfold store_ok. by rewrite Hids, Hnext.
Qed.

Lemma delete_store_ok st v st' t :
  store_ok st → Prisma.delete st v = inr (st', t) → store_ok st'.
Proof.
  intros [Hnd Hlt] H. apply delete_inr in H as (_ & _ & Hrows & Hnext).
  apply ids_filter in Hrows. unfold store_ok. rewrite Hrows, Hnext. split.
  - by apply NoDup_filter.
  - rewrite Forall_forall in Hlt |- *.
    intros m Hm. apply list_elem_of_filter in Hm as [_ Hm]. auto.
Qed.

Lemma occurrences_ids n (ts : list Prisma.Task) :
  occurrences n ts = length (filter (fun m => m = n) (Prisma.id <$> ts)).
Proof.
  unfold occurrences. induction ts as [|r rs IH]; [done|].
  rewrite fmap_cons, !filter_cons.
  destruct (decide (Prisma.id r = n)); cbn; by rewrite IH.
Qed.

Lemma count_NoDup n (l : list Z) :
  NoDup l → length (filter (fun m => m = n) l) = if decide (n ∈ l) then 1%nat else 0%nat.
Proof.
  induction l as [|m l IH]; intros Hnd.
  - by rewrite decide_False by apply not_elem_of_nil.
  - apply NoDup_cons in Hnd as [Hm Hnd]. rewrite filter_cons.
    destruct (decide (m = n)) as [->|Hne].
    + cbn. rewrite IH by done.
      rewrite (decide_False (P := n ∈ l)) by done.
      by rewrite decide_True by (apply elem_of_cons; auto).
    + rewrite IH by done. destruct (decide (n ∈ l)).
      * by rewrite decide_True by (apply elem_of_cons; auto).
      * rewrite decide_False; [done|].
        intros [?|?]%elem_of_cons; congruence.
Qed.

End store.

(** ** [parseInt] *)

Section parsing.

Implicit Types (c : ascii) (s ds rest : string).

Lemma digit_value_decimal c :
  is_decimal_digit c = true →
  JS.digit_value 10 c = Some (Z.of_nat (nat_of_ascii c) - 48).
Proof.
  unfold is_decimal_digit, JS.digit_value. cbn zeta. intros H. rewrite H.
  apply andb_true_iff in H as [H1 H2].
  apply Z.leb_le in H1, H2.
  destruct (_ <? 10) eqn:Hlt; [done|]. apply Z.ltb_ge in Hlt. lia.
Qed.

Lemma digit_value_not_decimal c :
  is_decimal_digit c = false → JS.digit_value 10 c = None.
Proof.
  unfold is_decimal_digit, JS.digit_value. cbn zeta. intros ->. cbn match.
  destruct (_ && _) eqn:H1; cbn match.
  - apply andb_true_iff in H1 as [H1 H2]. apply Z.leb_le in H1, H2.
    destruct (_ <? 10) eqn:Hlt; [|done]. apply Z.ltb_lt in Hlt. lia.
  - destruct ((65 <=? _) && _) eqn:H2; cbn match; [|done].
    apply andb_true_iff in H2 as [H2 H3]. apply Z.leb_le in H2, H3.
    destruct (_ <? 10) eqn:Hlt; [|done]. apply Z.ltb_lt in Hlt. lia.
Qed.

Lemma digit_not_white_space c :
  is_decimal_digit c = true → JS.is_white_space c = false.
Proof.
  unfold is_decimal_digit, JS.is_white_space. cbn zeta.
  intros [H1 H2]%andb_true_iff. apply Z.leb_le in H1, H2.
  apply orb_false_iff. split.
  - apply andb_false_iff. right. apply Z.leb_gt. lia.
  - apply Z.eqb_neq. lia.
Qed.

Lemma strip_sign_digit c s :
  is_decimal_digit c = true → JS.strip_sign (String c s) = (1, String c s).
Proof.
  intros H. unfold JS.strip_sign.
  destruct (decide (c = "-"%char)) as [->|]; [done|].
  destruct (decide (c = "+"%char)) as [->|]; [done|].
  by repeat case_match; simplify_eq.
Qed.

Lemma strip_sign_no_digit s :
  all_chars (fun c => negb (is_decimal_digit c)) s = true →
  all_chars (fun c => negb (is_decimal_digit c)) (JS.strip_sign s).2 = true.
Proof.
  unfold JS.strip_sign. intros H.
  repeat case_match; simplify_eq/=; try done;
    by apply andb_true_iff in H as [_ H].
Qed.

Lemma trim_start_all_chars (p : ascii → bool) (n : nat) s :
  (String.length s ≤ n)%nat →
  all_chars p s = true → all_chars p (JS.trim_start s) = true.
Proof.
  revert s. induction n as [|n IH]; intros s Hlen H.
  { destruct s; [done|]. cbn in Hlen. lia. }
  destruct s as [|c1 s]; [done|]. cbn [JS.trim_start].
  cbn in Hlen. pose proof H as H1. cbn in H1.
  apply andb_true_iff in H1 as [_ H1].
  destruct (JS.is_white_space c1); [apply IH; [lia|done]|].
  destruct s as [|c2 s]; [done|].
  cbn in Hlen. pose proof H1 as H2. cbn in H2.
  apply andb_true_iff in H2 as [_ H2].
  destruct (JS.is_white_space_2 c1 c2); [apply IH; [lia|done]|].
  destruct s as [|c3 s]; [done|].
  cbn in Hlen. pose proof H2 as H3. cbn in H3.
  apply andb_true_iff in H3 as [_ H3].
  destruct (JS.is_white_space_3 c1 c2 c3); [apply IH; [lia|done]|done].
Qed.

Lemma trim_start_no_digit s :
  all_chars (fun c => negb (is_decimal_digit c)) s = true →
  all_chars (fun c => negb (is_decimal_digit c)) (JS.trim_start s) = true.
Proof. by apply (trim_start_all_chars _ (String.length s)). Qed.

(** A byte below 128 that is no white space starts the number. *)
Lemma trim_start_ascii c s :
  JS.is_white_space c = false → Z.of_nat (nat_of_ascii c) < 128 →
  JS.trim_start (String c s) = String c s.
Proof.
  intros Hw Hc. cbn [JS.trim_start]. rewrite Hw.
  destruct s as [|c2 s]; [done|].
  assert (JS.is_white_space_2 c c2 = false) as ->.
  { unfold JS.is_white_space_2. cbn zeta.
    apply andb_false_iff. left. apply Z.eqb_neq. lia. }
  destruct s as [|c3 s]; [done|].
  assert (JS.is_white_space_3 c c2 c3 = false) as ->; [|done].
  unfold JS.is_white_space_3. cbn zeta.
  assert (∀ k, 128 ≤ k → (Z.of_nat (nat_of_ascii c) =? k) = false) as Hk.
  { intros k Hk. apply Z.eqb_neq. lia. }
  by rewrite !Hk by lia.
Qed.

Lemma trim_start_digit c s :
  is_decimal_digit c = true → JS.trim_start (String c s) = String c s.
Proof.
  intros H. apply trim_start_ascii; [by apply digit_not_white_space|].
  unfold is_decimal_digit in H. cbn zeta in H.
  apply andb_true_iff in H as [_ H]. apply Z.leb_le in H. lia.
Qed.

Lemma strip_radix_prefix_decimal s :
  hex_marked s = false → JS.strip_radix_prefix s = (10, s).
Proof.
  unfold hex_marked, JS.strip_radix_prefix. intros H.
  by repeat case_match; simplify_eq.
Qed.

Lemma no_digit_not_hex_marked s :
  all_chars (fun c => negb (is_decimal_digit c)) s = true → hex_marked s = false.
Proof.
  unfold hex_marked. intros H.
  by repeat case_match; simplify_eq/=.
Qed.

Lemma parse_digits_no_digit s acc :
  starts_with_digit s = false → JS.parse_digits 10 s acc = acc.
Proof.
  destruct s as [|c s]; [done|]. cbn. intros H.
  by rewrite digit_value_not_decimal.
Qed.

Lemma parse_digits_decimal ds rest acc :
  all_chars is_decimal_digit ds = true → starts_with_digit rest = false →
  JS.parse_digits 10 (ds +:+ rest) acc
  = match ds with
    | EmptyString => acc
    | _ => Some (decimal_from (from_option (fun a => a) 0 acc) ds)
    end.
Proof.
  intros Hds Hrest. revert acc Hds.
  induction ds as [|c ds IH]; intros acc Hds.
  - cbn. by apply parse_digits_no_digit.
  - cbn in Hds. apply andb_true_iff in Hds as [Hc Hds].
    change (String c ds +:+ rest) with (String c (ds +:+ rest)).
    cbn [JS.parse_digits]. rewrite digit_value_decimal by done.
    rewrite IH by done. cbn [decimal_from].
    destruct ds; [done|]. done.
Qed.

(** A string that begins with decimal digits, and is not read in radix
    16, parses to the number its digits denote. *)
Lemma parseInt_decimal_prefix ds rest :
  ds ≠ "" → all_chars is_decimal_digit ds = true →
  starts_with_digit rest = false → hex_marked (ds +:+ rest) = false →
  JS.parseInt_string (ds +:+ rest) = JS.Int (decimal_value ds).
Proof.
  intros Hne Hds Hrest Hhex. unfold JS.parseInt_string.
  destruct ds as [|c ds]; [done|].
  pose proof Hds as Hds'. cbn in Hds'. apply andb_true_iff in Hds' as [Hc _].
  change (String c ds +:+ rest) with (String c (ds +:+ rest)) in *.
  rewrite trim_start_digit by done.
  rewrite strip_sign_digit by done.
  rewrite strip_radix_prefix_decimal by done.
  change (String c (ds +:+ rest)) with (String c ds +:+ rest).
  rewrite parse_digits_decimal by done.
  cbn [from_option]. unfold decimal_value. f_equal. lia.
Qed.

(** A string without any decimal digit parses to [NaN]. *)
Lemma parseInt_no_digit s :
  all_chars (fun c => negb (is_decimal_digit c)) s = true →
  JS.parseInt_string s = JS.NaN.
Proof.
  intros H. unfold JS.parseInt_string.
  apply trim_start_no_digit, strip_sign_no_digit in H.
  destruct (JS.strip_sign _) as [sign s']. cbn in H.
  rewrite strip_radix_prefix_decimal by by apply no_digit_not_hex_marked.
  rewrite parse_digits_no_digit; [done|].
  destruct s' as [|c s']; [done|]. cbn in *.
  apply andb_true_iff in H as [H _]. by apply negb_true_iff.
Qed.

(** A value [parseInt] reads a number from is not empty for the validator. *)
Lemma parseInt_Int_not_empty (v : JS.value) n :
  JS.parseInt v = JS.Int n → Validator.isEmpty (Validator.toString v) = false.
Proof.
  unfold Validator.isEmpty. intros H. apply bool_decide_eq_false. intros He.
  destruct v as [| |b|[|z]|s]; try done.
  - destruct b; done.
  - unfold JS.parseInt in H. cbn in He, H. by rewrite He in H.
  - cbn in He. by subst.
Qed.

Lemma digit_value_hex (c : ascii) : JS.digit_value 16 c = hex_digit c.
Proof. by destruct c as [[] [] [] [] [] [] [] []]. Qed.

Lemma parse_digits_hex (hs rest : string) acc :
  all_chars is_hex_digit hs = true → starts_with_hex_digit rest = false →
  JS.parse_digits 16 (hs +:+ rest) acc
  = match hs with
    | EmptyString => acc
    | _ => Some (hex_from (from_option (fun a => a) 0 acc) hs)
    end.
Proof.
  intros Hhs Hrest. revert acc Hhs.
  induction hs as [|c hs IH]; intros acc Hhs.
  - change ("" +:+ rest) with rest.
    destruct rest as [|c rest]; [done|].
    cbn [JS.parse_digits starts_with_hex_digit] in *.
    rewrite digit_value_hex. unfold is_hex_digit in Hrest.
    by destruct (hex_digit c).
  - cbn in Hhs. apply andb_true_iff in Hhs as [Hc Hhs].
    change (String c hs +:+ rest) with (String c (hs +:+ rest)).
    cbn [JS.parse_digits hex_from]. rewrite digit_value_hex.
    unfold is_hex_digit in Hc. destruct (hex_digit c) as [d|]; [|done].
    rewrite IH by done. by destruct hs.
Qed.

(** A string marked [0x] or [0X] is read in radix 16. *)
Lemma parseInt_hex_marked (x : ascii) (hs rest : string) :
  x = "x"%char ∨ x = "X"%char →
  all_chars is_hex_digit hs = true → starts_with_hex_digit rest = false →
  JS.parseInt_string (String "0" (String x (hs +:+ rest)))
  = match hs with
    | EmptyString => JS.NaN
    | _ => JS.Int (hex_value hs)
    end.
Proof.
  intros Hx Hhs Hrest. unfold JS.parseInt_string.
  rewrite trim_start_ascii by done.
  change (JS.strip_sign (String "0" (String x (hs +:+ rest))))
    with (1, String "0" (String x (hs +:+ rest))).
  cbn match.
  assert (JS.strip_radix_prefix (String "0" (String x (hs +:+ rest)))
          = (16, hs +:+ rest)) as -> by by destruct Hx as [->| ->].
  rewrite parse_digits_hex by done.
  destruct hs; [done|]. cbn [from_option]. unfold hex_value. f_equal. lia.
Qed.

(** A sign in front of the digits. *)
Lemma parseInt_signed (sign : ascii) ds rest :
  sign = "-"%char ∨ sign = "+"%char →
  ds ≠ "" → all_chars is_decimal_digit ds = true →
  starts_with_digit rest = false → hex_marked (ds +:+ rest) = false →
  JS.parseInt_string (String sign (ds +:+ rest))
  = JS.Int (if decide (sign = "-"%char) then - decimal_value ds
            else decimal_value ds).
Proof.
  intros Hsign Hne Hds Hrest Hhex. unfold JS.parseInt_string.
  assert (JS.trim_start (String sign (ds +:+ rest)) = String sign (ds +:+ rest))
    as -> by (destruct Hsign as [->| ->]; by apply trim_start_ascii).
  assert (JS.strip_sign (String sign (ds +:+ rest))
          = (if decide (sign = "-"%char) then -1 else 1, ds +:+ rest)) as ->
    by by destruct Hsign as [->| ->].
  rewrite strip_radix_prefix_decimal by done.
  rewrite parse_digits_decimal by done.
  destruct ds as [|c ds]; [done|]. cbn [from_option].
  fold (decimal_value (String c ds)). f_equal.
  destruct (decide _); lia.
Qed.

(** Each white space in front of the number is skipped. *)
Lemma parseInt_white_space (ws s : string) :
  ws ∈ white_space → JS.parseInt_string (ws +:+ s) = JS.parseInt_string s.
Proof.
  intros Hws. unfold JS.parseInt_string.
  assert (JS.trim_start (ws +:+ s) = JS.trim_start s) as ->; [|done].
  unfold white_space in Hws.
  repeat (apply elem_of_cons in Hws as [->|Hws]; [reflexivity|]).
  by apply elem_of_nil in Hws.
Qed.

End parsing.

(** ** The handlers *)

Section handlers.

Implicit Types (w : World) (req : Express.Request) (t : Prisma.Task) (n : Z).

Lemma errors_decide (v : JS.value) l key :
  bool_decide
    ((if Validator.isEmpty (Validator.toString v)
      then [invalid_value l key v] else []) = [])
  = negb (Validator.isEmpty (Validator.toString v)).
Proof. by destruct (Validator.isEmpty _). Qed.

(** [POST /create] once the validation passed: one call of the store. *)
Lemma handler_create_valid w req :
  Validator.isEmpty (Validator.toString (JS.get (Express.body req) "name")) = false →
  handler_create w req
  = match Prisma.create (prisma w)
            {| Prisma.data_name := JS.get (Express.body req) "name";
               Prisma.data_info :=
                 defaulted (JS.JString "") (JS.get (Express.body req) "info");
               Prisma.data_isDone :=
                 defaulted (JS.JBoolean false) (JS.get (Express.body req) "isDone") |} with
    | inr (st, t) => (console_log (with_prisma w st) t, json (TaskJson t))
    | inl err => (w, status_json 500 (PrismaErrorJson err))
    end.
Proof.
  intros Hname. unfold handler_create.
  destruct (create_validation req) as (req' & -> & Hn & Hi & Hd).
  cbn zeta. rewrite errors_decide, Hname. cbn [negb].
  by rewrite Hn, Hi, Hd.
Qed.

Lemma handler_create_invalid w req :
  Validator.isEmpty (Validator.toString (JS.get (Express.body req) "name")) = true →
  handler_create w req
  = (w, status_json 404
          (ErrorsJson [invalid_value Validator.in_body "name"
                         (JS.get (Express.body req) "name")])).
Proof.
  intros Hname. unfold handler_create.
  destruct (create_validation req) as (req' & -> & _).
  cbn zeta. by rewrite errors_decide, Hname.
Qed.

(** [POST /update]: always one call of the store. *)
Lemma handler_update_store w req :
  handler_update w req
  = match Prisma.update (prisma w) (JS.get (Express.body req) "id")
            {| Prisma.data_name := JS.get (Express.body req) "name";
               Prisma.data_info := JS.get (Express.body req) "info";
               Prisma.data_isDone := JS.get (Express.body req) "isDone" |} with
    | inr (st, t) => (with_prisma w st, json (TaskJson t))
    | inl err => (w, status_json 500 (PrismaErrorJson err))
    end.
Proof. unfold handler_update. by rewrite update_validation. Qed.

(** [GET /delete/:id] once the validation passed. *)
Lemma handler_delete_valid w req :
  Validator.isEmpty (Validator.toString (JS.get (Express.params req) "id")) = false →
  handler_delete w req
  = match Prisma.delete (prisma w)
            (JS.JNumber (JS.parseInt (JS.get (Express.params req) "id"))) with
    | inr (st, t) => (with_prisma w st, json (TaskJson t))
    | inl err => (w, status_json 500 (PrismaErrorJson err))
    end.
Proof.
  intros Hid. unfold handler_delete. rewrite delete_validation.
  cbn zeta. by rewrite errors_decide, Hid.
Qed.

Lemma handler_delete_invalid w req :
  Validator.isEmpty (Validator.toString (JS.get (Express.params req) "id")) = true →
  handler_delete w req
  = (w, json (ErrorsJson [invalid_value Validator.in_params "id"
                            (JS.get (Express.params req) "id")])).
Proof.
  intros Hid. unfold handler_delete. rewrite delete_validation.
  cbn zeta. by rewrite errors_decide, Hid.
Qed.

(** What a request can do to the table: nothing, or what the one call of
    the store it issues does. *)
Lemma dispatch_cases r w req :
  let st' := prisma (dispatch r w req).1 in
  st' = prisma w
  ∨ (∃ data t, Prisma.create (prisma w) data = inr (st', t))
  ∨ (∃ v data t, Prisma.update (prisma w) v data = inr (st', t))
  ∨ (r = GET_delete
     ∧ ∃ t, Prisma.delete (prisma w)
              (JS.JNumber (JS.parseInt (JS.get (Express.params req) "id")))
            = inr (st', t)).
Proof.
  destruct r; cbn [dispatch].
  - by left.
  - destruct (Validator.isEmpty
                (Validator.toString (JS.get (Express.body req) "name"))) eqn:Hn.
    + rewrite handler_create_invalid by done. by left.
    + rewrite handler_create_valid by done.
      destruct (Prisma.create _ _) as [err|[st t]] eqn:Hc; [by left|].
      right; left. cbn. eauto.
  - rewrite handler_update_store.
    destruct (Prisma.update _ _ _) as [err|[st t]] eqn:Hc; [by left|].
    right; right; left. cbn. eauto.
  - destruct (Validator.isEmpty
                (Validator.toString (JS.get (Express.params req) "id"))) eqn:Hn.
    + rewrite handler_delete_invalid by done. by left.
    + rewrite handler_delete_valid by done.
      destruct (Prisma.delete _ _) as [err|[st t]] eqn:Hc; [by left|].
      right; right; right. cbn. eauto.
Qed.

Lemma dispatch_store_ok r w req :
  store_ok (prisma w) → store_ok (prisma (dispatch r w req).1).
Proof.
  intros Hok.
  destruct (dispatch_cases r w req) as [->|[(?&?&H)|[(?&?&?&H)|(_&?&H)]]];
    eauto using create_store_ok, update_store_ok, delete_store_ok.
Qed.

Lemma serve_cons w r req calls :
  (serve w ((r, req) :: calls)).1 = (serve (dispatch r w req).1 calls).1.
Proof.
  cbn [serve]. destruct (dispatch r w req) as [w1 res].
  cbn [fst]. by destruct (serve w1 calls).
Qed.

Lemma serve_store_ok w calls :
  store_ok (prisma w) → store_ok (prisma (serve w calls).1).
Proof.
  revert w. induction calls as [|[r req] calls IH]; intros w Hok; [done|].
  rewrite serve_cons. by apply IH, dispatch_store_ok.
Qed.

(** An [id] below the sequence that no row carries is never carried
    again. *)
Lemma dispatch_retired n r w req :
  n < Prisma.next_id (prisma w) → n ∉ ids (prisma w) →
  n < Prisma.next_id (prisma (dispatch r w req).1)
  ∧ n ∉ ids (prisma (dispatch r w req).1).
Proof.
  intros Hlt Hn.
  destruct (dispatch_cases r w req) as [->|[(?&?&H)|[(?&?&?&H)|(_&?&H)]]].
  - done.
  - apply create_inr in H as (Hid & Hrows & Hnext). unfold ids in *.
    rewrite Hrows, Hnext, fmap_app. split; [lia|].
    intros [?|Hin]%elem_of_app; [done|].
    cbn in Hin. apply list_elem_of_singleton in Hin. lia.
  - apply update_inr in H as (Hids & Hnext & _). by rewrite Hids, Hnext.
  - apply delete_inr in H as (_ & _ & Hrows & Hnext).
    apply ids_filter in Hrows. rewrite Hrows, Hnext. split; [done|].
    by intros [_ ?]%list_elem_of_filter.
Qed.

Lemma serve_retired n w calls :
  n < Prisma.next_id (prisma w) → n ∉ ids (prisma w) →
  n ∉ ids (prisma (serve w calls).1).
Proof.
  revert w. induction calls as [|[r req] calls IH]; intros w Hlt Hn; [done|].
  rewrite serve_cons.
  destruct (dispatch_retired n r w req Hlt Hn). by apply IH.
Qed.

(** An [id] in the table stays there until a delete designates it. *)
Lemma dispatch_kept n r w req :
  n ∈ ids (prisma w) → deletes n (r, req) = false →
  n ∈ ids (prisma (dispatch r w req).1).
Proof.
  intros Hn Hdel.
  destruct (dispatch_cases r w req) as [->|[(?&?&H)|[(?&?&?&H)|(->&t&H)]]].
  - done.
  - apply create_inr in H as (_ & Hrows & _). unfold ids in *.
    rewrite Hrows, fmap_app. apply elem_of_app. by left.
  - apply update_inr in H as (Hids & _). by rewrite Hids.
  - apply delete_inr in H as (Hv & _ & Hrows & _).
    apply ids_filter in Hrows. rewrite Hrows.
    apply list_elem_of_filter. split; [|done].
    intros ->. cbn in Hdel. apply bool_decide_eq_false in Hdel.
    apply Hdel. congruence.
Qed.

Lemma serve_kept n w calls :
  n ∈ ids (prisma w) → forallb (fun c => negb (deletes n c)) calls = true →
  n ∈ ids (prisma (serve w calls).1).
Proof.
  revert w. induction calls as [|[r req] calls IH]; intros w Hn Hdel; [done|].
  rewrite serve_cons. cbn [forallb] in Hdel.
  apply andb_true_iff in Hdel as [Hd Hdel]. apply negb_true_iff in Hd.
  apply IH; [by apply dispatch_kept | done].
Qed.

Lemma occurrences_store_ok n (st : Prisma.Store) :
  store_ok st →
  occurrences n (Prisma.rows st) = if decide (n ∈ ids st) then 1%nat else 0%nat.
Proof.
  intros [Hnd _]. rewrite occurrences_ids. by apply count_NoDup.
Qed.

End handlers.

(** ** The properties of the service *)

Section claims.

Implicit Types (w : World) (req : Express.Request) (t : Prisma.Task) (n : Z).

Lemma get_Some (obj : gmap string JS.value) key (v : JS.value) :
  obj !! key = Some v → JS.get obj key = v.
Proof. unfold JS.get. by intros ->. Qed.

Lemma get_None (obj : gmap string JS.value) key :
  obj !! key = None → JS.get obj key = JS.JUndefined.
Proof. unfold JS.get. by intros ->. Qed.

Lemma defaulted_String (i : string) :
  defaulted (JS.JString "") (JS.JString i) = JS.JString i.
Proof.
  unfold defaulted, Validator.is_defaulted. case_bool_decide as H; [|done].
  repeat (apply elem_of_cons in H as [H|H]; [by simplify_eq|]).
  by apply elem_of_nil in H.
Qed.

Lemma defaulted_Boolean (d b : bool) :
  defaulted (JS.JBoolean d) (JS.JBoolean b) = JS.JBoolean b.
Proof.
  unfold defaulted, Validator.is_defaulted. case_bool_decide as H; [|done].
  repeat (apply elem_of_cons in H as [H|H]; [by simplify_eq|]).
  by apply elem_of_nil in H.
Qed.

Lemma isEmpty_String (s : string) :
  s ≠ "" → Validator.isEmpty (Validator.toString (JS.JString s)) = false.
Proof. intros H. by apply bool_decide_eq_false. Qed.

(** [POST /create] on a payload of the documented types. *)
Lemma handler_create_payload w req (s : string) (oinfo : option string)
    (odone : option bool) :
  s ≠ "" →
  Express.body req !! "name" = Some (JS.JString s) →
  Express.body req !! "info" = JS.JString <$> oinfo →
  Express.body req !! "isDone" = JS.JBoolean <$> odone →
  store_ok (prisma w) →
  let t := {| Prisma.id := Prisma.next_id (prisma w);
              Prisma.name := s;
              Prisma.info := default "" oinfo;
              Prisma.isDone := default false odone |} in
  handler_create w req
  = ({| prisma := {| Prisma.rows := Prisma.rows (prisma w) ++ [t];
                     Prisma.next_id := Prisma.next_id (prisma w) + 1 |};
        console := console w ++ [t] |},
     {| status := 200; sent := TaskJson t |})
  ∧ Prisma.id t ∉ ids (prisma w).
Proof.
  intros Hs Hname Hinfo Hdone [_ Hlt] t. split.
  - rewrite handler_create_valid
      by (rewrite (get_Some _ _ _ Hname); by apply isEmpty_String).
    rewrite (get_Some _ _ _ Hname).
    assert (defaulted (JS.JString "") (JS.get (Express.body req) "info")
            = JS.JString (default "" oinfo)) as ->.
    { destruct oinfo as [i|]; cbn in Hinfo.
      - rewrite (get_Some _ _ _ Hinfo). apply defaulted_String.
      - by rewrite (get_None _ _ Hinfo). }
    assert (defaulted (JS.JBoolean false) (JS.get (Express.body req) "isDone")
            = JS.JBoolean (default false odone)) as ->.
    { destruct odone as [b|]; cbn in Hdone.
      - rewrite (get_Some _ _ _ Hdone). apply defaulted_Boolean.
      - by rewrite (get_None _ _ Hdone). }
    done.
  - cbn. intros Hin. rewrite Forall_forall in Hlt.
    specialize (Hlt _ Hin). lia.
Qed.

Lemma store_ok_empty next : store_ok {| Prisma.rows := []; Prisma.next_id := next |}.
Proof. split; [apply NoDup_nil_2 | apply Forall_nil_2]. Qed.

Lemma conforms_lookup schema (obj : gmap string JS.value) key ty :
  conforms schema obj = true → (key, ty) ∈ schema →
  from_option (has_type ty) true (obj !! key) = true.
Proof.
  unfold conforms. intros H Hin. rewrite forallb_forall in H.
  apply list_elem_of_In in Hin. apply (H _ Hin).
Qed.

Lemma conforms_string schema (obj : gmap string JS.value) key :
  conforms schema obj = true → (key, type_string) ∈ schema →
  ∃ o : option string, obj !! key = JS.JString <$> o.
Proof.
  intros H Hin. pose proof (conforms_lookup _ _ _ _ H Hin) as Hty.
  destruct (obj !! key) as [v|]; [|by exists None].
  destruct v as [| |?|[|?]|s]; try done. by exists (Some s).
Qed.

Lemma conforms_boolean schema (obj : gmap string JS.value) key :
  conforms schema obj = true → (key, type_boolean) ∈ schema →
  ∃ o : option bool, obj !! key = JS.JBoolean <$> o.
Proof.
  intros H Hin. pose proof (conforms_lookup _ _ _ _ H Hin) as Hty.
  destruct (obj !! key) as [v|]; [|by exists None].
  destruct v as [| |b|[|?]|?]; try done. by exists (Some b).
Qed.

(** C1, as it is stated, does not hold: a create request whose body has a
    non-empty [name] and the number 0 as [isDone] is answered 500 and
    inserts nothing. *)
Lemma create_nonempty_name_refused :
  Express.body
    (post [("name", JS.JString "Buy milk"); ("isDone", JS.JNumber (JS.Int 0))])
    !! "name" = Some (JS.JString "Buy milk")
  ∧ handler_create empty_world
      (post [("name", JS.JString "Buy milk"); ("isDone", JS.JNumber (JS.Int 0))])
    = (empty_world,
       {| status := 500; sent := PrismaErrorJson Prisma.ValidationError |}).
Proof. split; reflexivity. Qed.

(** C1, amended. A create request whose body has a non-empty string as
    [name], a string or nothing as [info] and a boolean or nothing as
    [isDone] inserts one new Task and is answered 200 with that Task: its
    [id] is the one the store assigns, which no Task carries yet, and its
    [name], [info] and [isDone] are the values of the request, [info]
    being the empty string and [isDone] false when left out. *)
Theorem create_valid_payload w req (s : string) :
  conforms create_schema (Express.body req) = true →
  Express.body req !! "name" = Some (JS.JString s) →
  s ≠ "" →
  store_ok (prisma w) →
  ∃ t,
    (handler_create w req
     = ({| prisma := {| Prisma.rows := Prisma.rows (prisma w) ++ [t];
                        Prisma.next_id := Prisma.next_id (prisma w) + 1 |};
           console := console w ++ [t] |},
        {| status := 200; sent := TaskJson t |}))
    ∧ Prisma.id t = Prisma.next_id (prisma w)
    ∧ (Prisma.id t ∉ ids (prisma w))
    ∧ Prisma.name t = s
    ∧ JS.JString (Prisma.info t)
      = default (JS.JString "") (Express.body req !! "info")
    ∧ JS.JBoolean (Prisma.isDone t)
      = default (JS.JBoolean false) (Express.body req !! "isDone").
Proof.
  intros Hty Hname Hs Hok.
  destruct (conforms_string _ _ "info" Hty) as [oinfo Hinfo];
    [by repeat constructor|].
  destruct (conforms_boolean _ _ "isDone" Hty) as [odone Hdone];
    [by repeat constructor|].
  destruct (handler_create_payload w req s oinfo odone Hs Hname Hinfo Hdone Hok)
    as [Heq Hfresh].
  eexists. split; [exact Heq|]. split; [done|]. split; [done|]. split; [done|].
  rewrite Hinfo, Hdone. by destruct oinfo, odone.
Qed.

Lemma create_valid_payload_witness :
  ∃ t,
    (handler_create empty_world buy_milk
     = ({| prisma := {| Prisma.rows := [] ++ [t]; Prisma.next_id := 1 + 1 |};
           console := [] ++ [t] |},
        {| status := 200; sent := TaskJson t |}))
    ∧ Prisma.id t = 1
    ∧ (Prisma.id t ∉ ids (prisma empty_world))
    ∧ Prisma.name t = "Buy milk"
    ∧ JS.JString (Prisma.info t) = JS.JString ""
    ∧ JS.JBoolean (Prisma.isDone t) = JS.JBoolean false.
Proof.
  apply (create_valid_payload empty_world buy_milk "Buy milk").
  - reflexivity.
  - reflexivity.
  - discriminate.
  - apply store_ok_empty.
Defined.

(** C4. A create request whose body has an empty or missing [name] leaves
    the state as it was -- no Task is persisted -- and is answered 404 with
    the list of validation failures, which holds one entry, for [name]. *)
Theorem create_without_name w req :
  Express.body req !! "name" = None
  ∨ Express.body req !! "name" = Some (JS.JString "") →
  ∃ errors,
    handler_create w req = (w, {| status := 404; sent := ErrorsJson errors |})
    ∧ errors = [invalid_value Validator.in_body "name"
                  (JS.get (Express.body req) "name")]
    ∧ errors ≠ [].
Proof.
  intros Hname. eexists. split; [|split; [reflexivity|done]].
  apply handler_create_invalid.
  destruct Hname as [H|H].
  - by rewrite (get_None _ _ H).
  - by rewrite (get_Some _ _ _ H).
Qed.

Lemma create_without_name_witness :
  ∃ errors,
    handler_create empty_world (post [("info", JS.JString "no name")])
    = (empty_world, {| status := 404; sent := ErrorsJson errors |})
    ∧ errors = [invalid_value Validator.in_body "name" JS.JUndefined]
    ∧ errors ≠ [].
Proof.
  apply (create_without_name empty_world (post [("info", JS.JString "no name")])).
  left. reflexivity.
Defined.

(** C6. A list request, whatever it carries, is answered 200 with the
    array of all the Tasks of the store, in the order of the store, and
    changes nothing: no request is turned away by a validation. *)
Theorem read_lists_the_store w req :
  handler_read w req
  = (w, {| status := 200; sent := TaskArray (Prisma.findMany (prisma w)) |})
  ∧ listed (handler_read w req).2 = Prisma.rows (prisma w)
  ∧ (Prisma.rows (prisma w) = [] → sent (handler_read w req).2 = TaskArray [])
  ∧ ∀ req', handler_read w req' = handler_read w req.
Proof.
  split; [done|]. split; [done|]. split; [|done].
  unfold handler_read, Prisma.findMany. by intros ->.
Qed.

Lemma update_arg_String (obj : gmap string JS.value) key (o : option string) :
  obj !! key = JS.JString <$> o →
  Prisma.update_arg Prisma.as_String (JS.get obj key) = Some o.
Proof.
  destruct o; cbn; intros H;
    by rewrite ?(get_Some _ _ _ H), ?(get_None _ _ H).
Qed.

Lemma update_arg_Boolean (obj : gmap string JS.value) key (o : option bool) :
  obj !! key = JS.JBoolean <$> o →
  Prisma.update_arg Prisma.as_Boolean (JS.get obj key) = Some o.
Proof.
  destruct o; cbn; intros H;
    by rewrite ?(get_Some _ _ _ H), ?(get_None _ _ H).
Qed.

Lemma update_designated (st : Prisma.Store) v data t on oi od :
  task_with_id st v = Some t →
  Prisma.update_arg Prisma.as_String (Prisma.data_name data) = Some on →
  Prisma.update_arg Prisma.as_String (Prisma.data_info data) = Some oi →
  Prisma.update_arg Prisma.as_Boolean (Prisma.data_isDone data) = Some od →
  let t' := {| Prisma.id := Prisma.id t;
               Prisma.name := default (Prisma.name t) on;
               Prisma.info := default (Prisma.info t) oi;
               Prisma.isDone := default (Prisma.isDone t) od |} in
  Prisma.update st v data = inr (replaced t t' st, t').
Proof.
  intros Ht Hn Hi Hd t'. unfold Prisma.update. rewrite Hn, Hi, Hd.
  apply task_with_id_Some in Ht as (-> & _ & Hf). cbn [Prisma.as_Int].
  by rewrite Hf.
Qed.

Lemma delete_designated (st : Prisma.Store) v t :
  task_with_id st v = Some t → Prisma.delete st v = inr (removed t st, t).
Proof.
  intros Ht. unfold Prisma.delete.
  apply task_with_id_Some in Ht as (-> & _ & Hf). cbn [Prisma.as_Int].
  by rewrite Hf.
Qed.

Lemma handler_create_inv w req w' t :
  handler_create w req = (w', {| status := 200; sent := TaskJson t |}) →
  ∃ data, Prisma.create (prisma w) data = inr (prisma w', t).
Proof.
  destruct (Validator.isEmpty
              (Validator.toString (JS.get (Express.body req) "name"))) eqn:Hn.
  - by rewrite handler_create_invalid.
  - rewrite handler_create_valid by done.
    destruct (Prisma.create _ _) as [err|[st t0]] eqn:Hc; [done|].
    intros [= <- <-]. eauto.
Qed.

Lemma replaced_last (rs : list Prisma.Task) t t' next :
  Forall (fun n => n < Prisma.id t) (Prisma.id <$> rs) →
  Prisma.rows (replaced t t' {| Prisma.rows := rs ++ [t]; Prisma.next_id := next |})
  = rs ++ [t'].
Proof.
  intros Hlt. unfold replaced. cbn. rewrite fmap_app. cbn. f_equal.
  - rewrite <- (list_fmap_id rs) at 2. apply list_fmap_ext.
    intros i r Hr. cbn.
    destruct (Prisma.has_id _ r) eqn:Hh; [|done].
    apply has_id_true in Hh. rewrite Forall_forall in Hlt.
    assert (Prisma.id r < Prisma.id t); [|lia].
    apply Hlt, list_elem_of_fmap. exists r. split; [done|].
    by eapply list_elem_of_lookup_2.
  - assert (Prisma.has_id (Prisma.id t) t = true) as -> by by apply has_id_true.
    done.
Qed.

(** [POST /update] on a payload of the documented types. *)
Lemma handler_update_payload w req t (oname oinfo : option string) (odone : option bool) :
  task_with_id (prisma w) (JS.get (Express.body req) "id") = Some t →
  Express.body req !! "name" = JS.JString <$> oname →
  Express.body req !! "info" = JS.JString <$> oinfo →
  Express.body req !! "isDone" = JS.JBoolean <$> odone →
  let t' := {| Prisma.id := Prisma.id t;
               Prisma.name := default (Prisma.name t) oname;
               Prisma.info := default (Prisma.info t) oinfo;
               Prisma.isDone := default (Prisma.isDone t) odone |} in
  let w' := with_prisma w (replaced t t' (prisma w)) in
  handler_update w req = (w', {| status := 200; sent := TaskJson t' |})
  ∧ (∀ rreq,
       t' ∈ listed (handler_read w' rreq).2
       ∧ ∀ r, r ∈ listed (handler_read w' rreq).2 →
              Prisma.id r = Prisma.id t → r = t')
  ∧ (∀ w0 creq rreq,
       store_ok (prisma w0) →
       handler_create w0 creq = (w, {| status := 200; sent := TaskJson t |}) →
       listed (handler_read w' rreq).2 = Prisma.rows (prisma w0) ++ [t']).
Proof.
  intros Ht Hname Hinfo Hdone t' w'. split; [|split].
  - rewrite handler_update_store.
    by rewrite (update_designated _ _ _ t oname oinfo odone)
      by eauto using update_arg_String, update_arg_Boolean.
  - intros rreq. cbn. apply task_with_id_Some in Ht as (_ & Hin & _). split.
    + apply list_elem_of_fmap. exists t. split; [|done].
      by assert (Prisma.has_id (Prisma.id t) t = true) as -> by by apply has_id_true.
    + intros r (r0 & -> & _)%list_elem_of_fmap Hid.
      destruct (Prisma.has_id (Prisma.id t) r0) eqn:Hh; [done|].
      apply has_id_true in Hid. congruence.
  - intros w0 creq rreq [_ Hlt] Hc.
    apply handler_create_inv in Hc as [data Hc].
    apply create_inr in Hc as (Hid & Hrows & Hnext).
    change (listed (handler_read w' rreq).2)
      with (Prisma.rows (replaced t t' (prisma w))).
    destruct (prisma w) as [rs next]. cbn in Hrows, Hnext. subst rs.
    apply replaced_last. by rewrite Hid.
Qed.

(** C2, as it is stated, does not hold: an update whose [id] matches an
    existing Task and whose payload supplies a number as [info] is answered
    500 and overwrites nothing. *)
Lemma update_matching_id_refused :
  task_with_id (prisma (world_of [milk] 2)) (JS.JNumber (JS.Int 1)) = Some milk
  ∧ handler_update (world_of [milk] 2)
      (post [("id", JS.JNumber (JS.Int 1)); ("name", JS.JString "Buy bread");
             ("info", JS.JNumber (JS.Int 2)); ("isDone", JS.JBoolean true)])
    = (world_of [milk] 2,
       {| status := 500; sent := PrismaErrorJson Prisma.ValidationError |}).
Proof. split; reflexivity. Qed.

(** C2, amended. An update request whose [id] is an integer that
    designates an existing Task and whose [name], [info] and [isDone],
    where supplied, are a string, a string and a boolean, gives that Task
    exactly the values the payload supplies, leaves a field the payload
    does not supply as it is, leaves the other Tasks alone and is answered
    200 with the updated Task.  A list request then shows the new values
    and no longer the old ones; after create, update and read, the Tasks
    read are those from before the create and the Task with the values of
    the update. *)
Theorem update_existing w req t :
  conforms update_schema (Express.body req) = true →
  task_with_id (prisma w) (JS.get (Express.body req) "id") = Some t →
  ∃ w' t',
    (handler_update w req = (w', {| status := 200; sent := TaskJson t' |}))
    ∧ Prisma.id t' = Prisma.id t
    ∧ JS.JString (Prisma.name t')
      = default (JS.JString (Prisma.name t)) (Express.body req !! "name")
    ∧ JS.JString (Prisma.info t')
      = default (JS.JString (Prisma.info t)) (Express.body req !! "info")
    ∧ JS.JBoolean (Prisma.isDone t')
      = default (JS.JBoolean (Prisma.isDone t)) (Express.body req !! "isDone")
    ∧ (∀ rreq,
         t' ∈ listed (handler_read w' rreq).2
         ∧ (∀ r, r ∈ listed (handler_read w' rreq).2 →
                 Prisma.id r = Prisma.id t → r = t')
         ∧ (∀ r, Prisma.id r ≠ Prisma.id t →
                 r ∈ listed (handler_read w' rreq).2
                 ↔ r ∈ Prisma.rows (prisma w)))
    ∧ (∀ w0 creq rreq,
         store_ok (prisma w0) →
         handler_create w0 creq = (w, {| status := 200; sent := TaskJson t |}) →
         listed (handler_read w' rreq).2 ≡ₚ Prisma.rows (prisma w0) ++ [t']).
Proof.
  intros Hty Ht.
  destruct (conforms_string _ _ "name" Hty) as [oname Hname];
    [by repeat constructor|].
  destruct (conforms_string _ _ "info" Hty) as [oinfo Hinfo];
    [by repeat constructor|].
  destruct (conforms_boolean _ _ "isDone" Hty) as [odone Hdone];
    [by repeat constructor|].
  destruct (handler_update_payload w req t oname oinfo odone Ht Hname Hinfo Hdone)
    as (Heq & Hread & Hround).
  eexists _, _. split; [exact Heq|]. split; [done|].
  rewrite Hname, Hinfo, Hdone.
  split; [by destruct oname|]. split; [by destruct oinfo|].
  split; [by destruct odone|]. split.
  - intros rreq. destruct (Hread rreq) as [Hin Huniq].
    split; [done|]. split; [done|].
    intros r Hr. cbn. rewrite list_elem_of_fmap. split.
    + intros (r0 & -> & Hr0).
      destruct (Prisma.has_id (Prisma.id t) r0); [done|done].
    + intros Hin'. exists r. split; [|done].
      destruct (Prisma.has_id (Prisma.id t) r) eqn:Hh; [|done].
      apply has_id_true in Hh. done.
  - intros w0 creq rreq Hok Hc. by rewrite (Hround w0 creq rreq Hok Hc).
Qed.

Lemma update_existing_witness :
  ∃ w' t',
    (handler_update (world_of [milk] 2) update_milk
     = (w', {| status := 200; sent := TaskJson t' |}))
    ∧ JS.JString (Prisma.name t') = JS.JString "Buy milk"
    ∧ JS.JString (Prisma.info t') = JS.JString "2%"
    ∧ JS.JBoolean (Prisma.isDone t') = JS.JBoolean true
    ∧ t' ∈ listed (handler_read w' get_plain).2.
Proof.
  destruct (update_existing (world_of [milk] 2) update_milk milk)
    as (w' & t' & Heq & _ & Hname & Hinfo & Hdone & Hread & _).
  - reflexivity.
  - reflexivity.
  - exists w', t'. split; [exact Heq|]. split; [exact Hname|].
    split; [exact Hinfo|]. split; [exact Hdone|].
    exact (proj1 (Hread get_plain)).
Defined.

Lemma removed_retired (st : Prisma.Store) t :
  store_ok st → t ∈ Prisma.rows st →
  Prisma.id t < Prisma.next_id (removed t st) ∧ Prisma.id t ∉ ids (removed t st).
Proof.
  intros [_ Hlt] Hin. split.
  - cbn. rewrite Forall_forall in Hlt. apply Hlt.
    apply list_elem_of_fmap. eauto.
  - rewrite (ids_filter (removed t st) st (Prisma.id t)) by done.
    by intros [? _]%list_elem_of_filter.
Qed.

Lemma not_listed (st : Prisma.Store) n :
  n ∉ ids st → Forall (fun r => Prisma.id r ≠ n) (Prisma.rows st).
Proof.
  intros Hn. apply Forall_forall. intros r Hr Hid. apply Hn.
  apply list_elem_of_fmap. eauto.
Qed.

(** C3. A delete request whose [id] designates an existing Task deletes
    that Task and is answered 200 with the Task as it was before the
    deletion; whatever requests follow, no list response shows a Task
    with that [id] again. *)
Theorem delete_existing w req t :
  store_ok (prisma w) →
  task_with_id (prisma w)
    (JS.JNumber (JS.parseInt (JS.get (Express.params req) "id"))) = Some t →
  let w' := with_prisma w (removed t (prisma w)) in
  handler_delete w req = (w', {| status := 200; sent := TaskJson t |})
  ∧ t ∈ Prisma.rows (prisma w)
  ∧ ∀ calls rreq,
      Forall (fun r => Prisma.id r ≠ Prisma.id t)
        (listed (handler_read (serve w' calls).1 rreq).2).
Proof.
  intros Hok Ht w'.
  pose proof (task_with_id_Some _ _ _ Ht) as (Hv & Hin & _).
  split; [|split; [done|]].
  - rewrite handler_delete_valid.
    + by rewrite (delete_designated _ _ _ Ht).
    + injection Hv as Hv. by eapply parseInt_Int_not_empty.
  - intros calls rreq.
    destruct (removed_retired _ _ Hok Hin) as [Hlt Hn].
    apply not_listed. by apply serve_retired.
Qed.

Lemma delete_existing_witness :
  handler_delete (world_of [milk_done] 2) (get_with_id "1")
  = (world_of [] 2, {| status := 200; sent := TaskJson milk_done |}).
Proof.
  refine (proj1 (delete_existing (world_of [milk_done] 2) (get_with_id "1")
                   milk_done _ _)).
  - split; [apply NoDup_singleton | apply Forall_singleton; reflexivity].
  - reflexivity.
Defined.

(** C5. An update or delete request that names an [id] no Task of the
    store carries is answered 500 with the error of the store call, never
    with a Task, and leaves the state as it was. *)
Theorem unknown_id_is_500 w r req :
  names_unknown_id (prisma w) r req = true →
  ∃ err, dispatch r w req = (w, {| status := 500; sent := PrismaErrorJson err |}).
Proof.
  destruct r; cbn [names_unknown_id dispatch]; try done.
  - intros H%bool_decide_eq_true. rewrite handler_update_store.
    destruct (Prisma.update _ _ _) as [err|[st t]] eqn:Hu; [by eexists|].
    pose proof (update_inr _ _ _ _ _ Hu) as (_ & _ & Hv).
    unfold Prisma.update in Hu. rewrite Hv in Hu, H. cbn in Hu, H.
    rewrite H in Hu. by repeat case_match.
  - intros [Hne H%bool_decide_eq_true]%andb_true_iff.
    apply negb_true_iff in Hne. rewrite handler_delete_valid by done.
    destruct (Prisma.delete _ _) as [err|[st t]] eqn:Hd; [by eexists|].
    apply delete_inr in Hd as (_ & Hd & _). congruence.
Qed.

Lemma unknown_id_is_500_witness :
  (∃ err, handler_update (world_of [milk] 2)
            (post [("id", JS.JNumber (JS.Int 7)); ("name", JS.JString "x")])
          = (world_of [milk] 2, {| status := 500; sent := PrismaErrorJson err |}))
  ∧ (∃ err, handler_delete (world_of [milk] 2) (get_with_id "7")
            = (world_of [milk] 2, {| status := 500; sent := PrismaErrorJson err |})).
Proof.
  split.
  - apply (unknown_id_is_500 (world_of [milk] 2) POST_update). reflexivity.
  - apply (unknown_id_is_500 (world_of [milk] 2) GET_delete). reflexivity.
Defined.

(** C7. From a table in which no two Tasks share an [id], every request
    leads to such a table again; and after a successful create, whatever
    requests follow, a list response shows the [id] of the created Task at
    most once, and exactly once as long as no delete request designated
    it. *)
Theorem id_unique_for_lifetime w req w1 t :
  store_ok (prisma w) →
  handler_create w req = (w1, {| status := 200; sent := TaskJson t |}) →
  (∀ r req', store_ok (prisma (dispatch r w req').1))
  ∧ ∀ calls rreq,
      let ts := listed (handler_read (serve w1 calls).1 rreq).2 in
      store_ok (prisma (serve w1 calls).1)
      ∧ (occurrences (Prisma.id t) ts ≤ 1)%nat
      ∧ (forallb (fun c => negb (deletes (Prisma.id t) c)) calls = true →
         occurrences (Prisma.id t) ts = 1%nat).
Proof.
  intros Hok Hc. split; [intros; by apply dispatch_store_ok|].
  intros calls rreq ts.
  apply handler_create_inv in Hc as [data Hc].
  pose proof (create_store_ok _ _ _ _ Hok Hc) as Hok1.
  pose proof (serve_store_ok w1 calls Hok1) as Hok2.
  assert (Hts : ts = Prisma.rows (prisma (serve w1 calls).1)) by done.
  split; [done|]. rewrite Hts, occurrences_store_ok by done. split.
  - by destruct (decide _); lia.
  - intros Hdel. rewrite decide_True; [done|].
    apply serve_kept; [|done].
    apply create_inr in Hc as (_ & Hrows & _). unfold ids. rewrite Hrows.
    rewrite fmap_app. apply elem_of_app. right. by apply list_elem_of_singleton.
Qed.

Lemma id_unique_for_lifetime_witness :
  occurrences 1
    (listed (handler_read
               (serve (handler_create empty_world buy_milk).1
                  [(POST_update, update_milk); (GET_delete, get_with_id "7")]).1
               get_plain).2) = 1%nat.
Proof.
  refine (proj2 (proj2 (proj2
    (id_unique_for_lifetime empty_world buy_milk
       (handler_create empty_world buy_milk).1 milk _ _)
    [(POST_update, update_milk); (GET_delete, get_with_id "7")] get_plain)) _).
  - apply store_ok_empty.
  - reflexivity.
  - reflexivity.
Defined.

(** C8 read literally -- update validation fails exactly when one of
    [id], [name], [info], [isDone] is absent -- does not hold: in a request
    with an empty body all four are absent and the validation reports
    nothing. *)
Lemma update_validation_ignores_absence :
  ¬ (update_validation_fails (post []) ↔ update_field_absent (post [])).
Proof.
  intros [_ Hfails]. apply Hfails; [|reflexivity].
  exists "name". split; [|reflexivity].
  apply elem_of_cons. right. apply elem_of_cons. by left.
Qed.

(** C8, amended. The validation step of the update handler names [name],
    [info] and [isDone] in the body, and not [id], with no rule on any of
    them: it checks neither type nor presence, leaves the request as it
    is, and no request fails it, whether the fields are present or not. *)
Theorem update_validation_has_no_rule req :
  Validator.chain_path <$> update_chains = ["name"; "info"; "isDone"]
  ∧ Forall (fun c => Validator.chain_location c = Validator.in_body
                     ∧ Validator.chain_stack c = []) update_chains
  ∧ Validator.run_chains update_chains req = (req, [])
  ∧ ¬ update_validation_fails req.
Proof.
  split; [done|]. split; [by repeat constructor|]. split.
  - apply update_validation.
  - unfold update_validation_fails. rewrite update_validation.
    intros H. by apply H.
Qed.

(** C9. Whatever the payload of an update request, the validation result
    is empty: the handler never answers with validation failures and
    always issues the store update, whose outcome it answers. *)
Theorem update_always_reaches_store w req :
  (Validator.run_chains update_chains req).2 = []
  ∧ handler_update w req
    = then_catch w
        (Prisma.update (prisma w) (JS.get (Express.body req) "id")
           {| Prisma.data_name := JS.get (Express.body req) "name";
              Prisma.data_info := JS.get (Express.body req) "info";
              Prisma.data_isDone := JS.get (Express.body req) "isDone" |})
  ∧ ∀ errors, sent (handler_update w req).2 ≠ ErrorsJson errors.
Proof.
  split; [by rewrite update_validation|]. split.
  - apply handler_update_store.
  - intros errors. rewrite handler_update_store.
    by destruct (Prisma.update _ _ _) as [err|[st t]].
Qed.

(** C10, as it is stated, does not hold: the segment [0x10] has the
    numeric prefix 0, yet the delete leaves the Task of [id] 0 in the
    table and takes out the Task of [id] 16. *)
Lemma delete_0x10_takes_task_16 :
  let zero := {| Prisma.id := 0; Prisma.name := "Zero"; Prisma.info := "";
                 Prisma.isDone := false |} in
  let sixteen := {| Prisma.id := 16; Prisma.name := "Sixteen"; Prisma.info := "";
                    Prisma.isDone := false |} in
  handler_delete (world_of [zero; sixteen] 17) (get_with_id "0x10")
  = (world_of [zero] 17, {| status := 200; sent := TaskJson sixteen |}).
Proof. reflexivity. Qed.

(** C10, amended. A delete request is not turned away for an [id] segment
    that is not a decimal integer: the handler hands [parseInt (id)] to the
    store delete and answers its outcome.  When the segment begins with
    decimal digits and is not marked [0x] or [0X], the Task whose [id]
    those digits denote is deleted, if there is one; when it is marked
    [0x] or [0X] it is read in radix 16, and the Task whose [id] its
    hexadecimal digits denote is deleted; when the segment holds no digit,
    [parseInt] gives [NaN] and the answer is the 500 of a store error, the
    state staying as it was.  White space in front of the number is
    skipped, and a sign is read. *)
Theorem delete_hands_parseInt_to_store w req (s : string) :
  Express.params req !! "id" = Some (JS.JString s) →
  s ≠ "" →
  handler_delete w req
  = then_catch w (Prisma.delete (prisma w) (JS.JNumber (JS.parseInt_string s)))
  ∧ (∀ errors, sent (handler_delete w req).2 ≠ ErrorsJson errors)
  ∧ (∀ ds rest t,
       s = ds +:+ rest → ds ≠ "" → all_chars is_decimal_digit ds = true →
       starts_with_digit rest = false → hex_marked s = false →
       task_with_id (prisma w) (JS.JNumber (JS.Int (decimal_value ds))) = Some t →
       handler_delete w req
       = (with_prisma w (removed t (prisma w)),
          {| status := 200; sent := TaskJson t |}))
  ∧ (all_chars (fun c => negb (is_decimal_digit c)) s = true →
     JS.parseInt_string s = JS.NaN
     ∧ handler_delete w req
       = (w, {| status := 500; sent := PrismaErrorJson Prisma.ValidationError |}))
  ∧ (∀ (x : ascii) hs rest t,
       s = String "0" (String x (hs +:+ rest)) →
       x = "x"%char ∨ x = "X"%char →
       hs ≠ "" → all_chars is_hex_digit hs = true →
       starts_with_hex_digit rest = false →
       task_with_id (prisma w) (JS.JNumber (JS.Int (hex_value hs))) = Some t →
       handler_delete w req
       = (with_prisma w (removed t (prisma w)),
          {| status := 200; sent := TaskJson t |}))
  ∧ (∀ ws s',
       ws ∈ white_space → s = ws +:+ s' →
       JS.parseInt_string s = JS.parseInt_string s')
  ∧ (∀ (sign : ascii) ds rest,
       s = String sign (ds +:+ rest) →
       sign = "-"%char ∨ sign = "+"%char →
       ds ≠ "" → all_chars is_decimal_digit ds = true →
       starts_with_digit rest = false → hex_marked (ds +:+ rest) = false →
       JS.parseInt_string s
       = JS.Int (if decide (sign = "-"%char) then - decimal_value ds
                 else decimal_value ds)).
Proof.
  intros Hid Hs.
  assert (Heq : handler_delete w req
    = then_catch w (Prisma.delete (prisma w) (JS.JNumber (JS.parseInt_string s)))).
  { rewrite handler_delete_valid; rewrite (get_Some _ _ _ Hid);
      [done | by apply isEmpty_String]. }
  split; [done|]. rewrite Heq. repeat split.
  - intros errors. by destruct (Prisma.delete _ _) as [err|[st t]].
  - intros ds rest t -> Hne Hds Hrest Hhex Ht.
    rewrite parseInt_decimal_prefix by done.
    by rewrite (delete_designated _ _ _ Ht).
  - by apply parseInt_no_digit.
  - by rewrite parseInt_no_digit.
  - intros x hs rest t -> Hx Hne Hhs Hrest Ht.
    rewrite parseInt_hex_marked by done. destruct hs; [done|].
    by rewrite (delete_designated _ _ _ Ht).
  - intros ws s' Hws ->. by apply parseInt_white_space.
  - intros sign ds rest -> Hsign Hne Hds Hrest Hhex.
    by apply parseInt_signed.
Qed.

Lemma delete_hands_parseInt_to_store_witness :
  handler_delete (world_of [milk; task12] 13) (get_with_id "12abc")
  = (world_of [milk] 13, {| status := 200; sent := TaskJson task12 |})
  ∧ ∃ err, handler_delete (world_of [milk; task12] 13) (get_with_id "abc")
           = (world_of [milk; task12] 13,
              {| status := 500; sent := PrismaErrorJson err |}).
Proof.
  split.
  - refine (proj1 (proj2 (proj2
      (delete_hands_parseInt_to_store (world_of [milk; task12] 13)
         (get_with_id "12abc") "12abc" _ _))) "12" "abc" task12 _ _ _ _ _ _);
      first [reflexivity | discriminate].
  - eexists.
    refine (proj2 (proj1 (proj2 (proj2 (proj2
      (delete_hands_parseInt_to_store (world_of [milk; task12] 13)
         (get_with_id "abc") "abc" _ _)))) _));
      first [reflexivity | discriminate].
Defined.

End claims.

(** ** The scenario of the specification *)

Example scenario :
  (serve empty_world
     [(POST_create, buy_milk); (GET_read, get_plain); (POST_update, update_milk);
      (GET_delete, get_with_id "1"); (GET_read, get_plain)]).2
  = [json (TaskJson milk); json (TaskArray [milk]); json (TaskJson milk_done);
     json (TaskJson milk_done); json (TaskArray [])].
Proof. reflexivity. Qed.

(** A payload the store refuses is a store failure: 500, nothing stored. *)
Example create_refused_by_store :
  handler_create empty_world (post [("name", JS.JNumber (JS.Int 5))])
  = (empty_world,
     {| status := 500; sent := PrismaErrorJson Prisma.ValidationError |}).
Proof. reflexivity. Qed.

(** [GET /delete/%C2%A012]: the no-break space U+00A0 in front of the
    digits is white space for [parseInt]. *)
Example delete_after_no_break_space :
  JS.parseInt_string (String (ascii_of_nat 194) (String (ascii_of_nat 160) "12"))
  = JS.Int 12
  ∧ handler_delete (world_of [milk; task12] 13)
      (get_with_id (String (ascii_of_nat 194) (String (ascii_of_nat 160) "12")))
    = (world_of [milk] 13, {| status := 200; sent := TaskJson task12 |})
  ∧ names_unknown_id (prisma (world_of [milk; task12] 13)) GET_delete
      (get_with_id (String (ascii_of_nat 194) (String (ascii_of_nat 160) "12")))
    = false.
Proof. by repeat split. Qed.

Example parseInt_skips_unicode_white_space :
  JS.parseInt_string
    (String (ascii_of_nat 226) (String (ascii_of_nat 128)
       (String (ascii_of_nat 168) " 7")))
  = JS.Int 7
  ∧ JS.parseInt_string
      (String (ascii_of_nat 239) (String (ascii_of_nat 187)
         (String (ascii_of_nat 191) "-3")))
    = JS.Int (-3)
  ∧ JS.parseInt_string (String (ascii_of_nat 195) (String (ascii_of_nat 169) "5"))
    = JS.NaN.
Proof. by repeat split. Qed.

Example parseInt_examples :
  JS.parseInt (JS.JString "12abc") = JS.Int 12
  ∧ JS.parseInt (JS.JString "abc") = JS.NaN
  ∧ JS.parseInt (JS.JString "  -42px") = JS.Int (-42)
  ∧ JS.parseInt (JS.JString "0x1f") = JS.Int 31
  ∧ JS.parseInt (JS.JString "") = JS.NaN.
Proof. by repeat split. Qed.

(** ** Further properties of the handlers *)

Section outcomes.

Implicit Types (w : World) (req : Express.Request) (t : Prisma.Task) (n : Z).

Lemma pretty_N_go_grows (x : N) (s : string) :
  s ≠ "" → pretty_N_go x s ≠ "".
Proof.
  revert s. induction (N.lt_wf_0 x) as [x _ IH]; intros s Hs.
  destruct (decide (x = 0)%N) as [->|Hx]; [by rewrite pretty_N_go_0|].
  rewrite pretty_N_go_step by lia. apply IH; [|done].
  apply N.div_lt; lia.
Qed.

Lemma pretty_Z_not_empty (z : Z) : pretty z ≠ "".
Proof.
  assert (Hp : ∀ p : positive, pretty (N.pos p) ≠ "").
  { intros p. unfold pretty, pretty_N. rewrite decide_False by done.
    rewrite pretty_N_go_step by lia. by apply pretty_N_go_grows. }
  destruct z as [|p|p]; [done|apply Hp|].
  unfold pretty, pretty_Z. cbn. discriminate.
Qed.

Lemma isEmpty_blank (v : JS.value) :
  Validator.isEmpty (Validator.toString v) = blank v.
Proof.
  unfold Validator.isEmpty, blank.
  destruct v as [| |b|[|z]|s]; try done.
  - destruct b; done.
  - cbn. rewrite bool_decide_eq_false_2 by apply pretty_Z_not_empty.
    symmetry. apply bool_decide_eq_false.
    intros H. repeat (apply elem_of_cons in H as [H|H]; [done|]).
    by apply elem_of_nil in H.
  - cbn. destruct (decide (s = "")) as [->|Hs]; [done|].
    rewrite bool_decide_eq_false_2 by done.
    symmetry. apply bool_decide_eq_false.
    intros H. repeat (apply elem_of_cons in H as [H|H]; [by simplify_eq|]).
    by apply elem_of_nil in H.
Qed.

(** X1. For a create request whose [name] is absent or a scalar,
    [POST /create] answers 404 exactly when [name] is absent, [null],
    [NaN] or the empty string; every other boolean, number or string
    passes the validation. *)
Theorem create_404_iff_name_blank w req :
  status (handler_create w req).2 = 404%nat
  ↔ blank (JS.get (Express.body req) "name") = true.
Proof.
  rewrite <- isEmpty_blank.
  destruct (Validator.isEmpty _) eqn:Hn.
  - by rewrite handler_create_invalid.
  - rewrite handler_create_valid by done.
    by destruct (Prisma.create _ _) as [err|[st t]].
Qed.

(** X2. What each kind of answer means, for every route and request: a
    Task array only comes from [GET /read], with 200; a Task comes with
    200, from a create, an update or a delete; a store error comes with
    500; validation failures come with 404 from [POST /create] and with
    200 from [GET /delete/:id], and never from the two other routes.  Every
    answer but a Task leaves the state of the process as it was. *)
Theorem answers_classified r w req :
  match sent (dispatch r w req).2 with
  | TaskArray _ =>
      r = GET_read ∧ status (dispatch r w req).2 = 200%nat
      ∧ (dispatch r w req).1 = w
  | TaskJson _ =>
      r ≠ GET_read ∧ status (dispatch r w req).2 = 200%nat
  | PrismaErrorJson _ =>
      r ≠ GET_read ∧ status (dispatch r w req).2 = 500%nat
      ∧ (dispatch r w req).1 = w
  | ErrorsJson errors =>
      ((r = POST_create ∧ status (dispatch r w req).2 = 404%nat)
       ∨ (r = GET_delete ∧ status (dispatch r w req).2 = 200%nat))
      ∧ errors ≠ [] ∧ (dispatch r w req).1 = w
  end.
Proof.
  destruct r; cbn [dispatch].
  - done.
  - destruct (Validator.isEmpty
                (Validator.toString (JS.get (Express.body req) "name"))) eqn:Hn.
    + rewrite handler_create_invalid by done. cbn. naive_solver.
    + rewrite handler_create_valid by done.
      by destruct (Prisma.create _ _) as [err|[st t]].
  - rewrite handler_update_store.
    by destruct (Prisma.update _ _ _) as [err|[st t]].
  - destruct (Validator.isEmpty
                (Validator.toString (JS.get (Express.params req) "id"))) eqn:Hn.
    + rewrite handler_delete_invalid by done. cbn. naive_solver.
    + rewrite handler_delete_valid by done.
      by destruct (Prisma.delete _ _) as [err|[st t]].
Qed.

Lemma defaulted_blank (d v : JS.value) :
  Validator.is_defaulted v = true → defaulted d v = d.
Proof. unfold defaulted. by intros ->. Qed.

(** X3. In [POST /create] the sanitizer [default] replaces not only a
    missing [info] or [isDone] but also a [null] and an empty string: with
    a non-empty string [name], such a request stores and answers a Task
    whose [info] is the empty string and whose [isDone] is false. *)
Theorem create_defaults_null_and_empty w req (s : string) :
  Express.body req !! "name" = Some (JS.JString s) →
  s ≠ "" →
  blank (JS.get (Express.body req) "info") = true →
  blank (JS.get (Express.body req) "isDone") = true →
  let t := {| Prisma.id := Prisma.next_id (prisma w); Prisma.name := s;
              Prisma.info := ""; Prisma.isDone := false |} in
  handler_create w req
  = (console_log
       (with_prisma w {| Prisma.rows := Prisma.rows (prisma w) ++ [t];
                         Prisma.next_id := Prisma.next_id (prisma w) + 1 |}) t,
     {| status := 200; sent := TaskJson t |}).
Proof.
  intros Hname Hs Hinfo Hdone t.
  rewrite handler_create_valid
    by (rewrite (get_Some _ _ _ Hname); by apply isEmpty_String).
  rewrite (get_Some _ _ _ Hname).
  by rewrite !defaulted_blank by done.
Qed.

Lemma create_defaults_null_and_empty_witness :
  handler_create empty_world
    (post [("name", JS.JString "Buy milk"); ("info", JS.JNull);
           ("isDone", JS.JString "")])
  = ({| prisma := {| Prisma.rows := [milk]; Prisma.next_id := 2 |};
        console := [milk] |},
     {| status := 200; sent := TaskJson milk |}).
Proof.
  apply (create_defaults_null_and_empty empty_world
           (post [("name", JS.JString "Buy milk"); ("info", JS.JNull);
                  ("isDone", JS.JString "")]) "Buy milk").
  - reflexivity.
  - discriminate.
  - reflexivity.
  - reflexivity.
Defined.

Lemma ill_typed_field schema (obj : gmap string JS.value) :
  ill_typed schema obj = true →
  ∃ key ty, (key, ty) ∈ schema ∧ JS.get obj key ≠ JS.JUndefined
            ∧ has_type ty (JS.get obj key) = false.
Proof.
  unfold ill_typed. intros ([key ty] & Hin & H)%existsb_exists.
  apply andb_true_iff in H as [Hne Hty]. apply negb_true_iff in Hty.
  exists key, ty. rewrite list_elem_of_In. split; [done|]. split; [|done].
  intros Hu. by rewrite Hu in Hne.
Qed.

(** X4. [POST /update] writes all or nothing: when the body holds, for
    [id], [name], [info] or [isDone], a boolean, a number or a string where
    the route documents another type (a number for [info], say), the
    client refuses the call, the answer is 500 and no field of any Task
    changes, even if the other fields are well typed and the [id]
    designates a Task. *)
Theorem update_ill_typed_field w req :
  ill_typed update_schema (Express.body req) = true →
  handler_update w req
  = (w, {| status := 500; sent := PrismaErrorJson Prisma.ValidationError |}).
Proof.
  intros (key & ty & Hin & Hne & Hty)%ill_typed_field.
  rewrite handler_update_store. unfold Prisma.update.
  cbn [Prisma.data_name Prisma.data_info Prisma.data_isDone].
  unfold update_schema in Hin.
  repeat (apply elem_of_cons in Hin as [Hin|Hin]);
    [..|by apply elem_of_nil in Hin]; simplify_eq;
    destruct (JS.get (Express.body req) _) as [| |?|[|?]|?] eqn:Hv in Hne, Hty |- *;
    try done; cbn;
    repeat first [ done | destruct (Prisma.as_Int _)
                 | destruct (Prisma.update_arg _ _) ].
Qed.

Lemma update_ill_typed_field_witness :
  handler_update (world_of [milk] 2)
    (post [("id", JS.JNumber (JS.Int 1)); ("name", JS.JString "Buy bread");
           ("info", JS.JNumber (JS.Int 2))])
  = (world_of [milk] 2,
     {| status := 500; sent := PrismaErrorJson Prisma.ValidationError |}).
Proof.
  apply (update_ill_typed_field (world_of [milk] 2)
           (post [("id", JS.JNumber (JS.Int 1)); ("name", JS.JString "Buy bread");
                  ("info", JS.JNumber (JS.Int 2))])).
  reflexivity.
Defined.

Lemma update_inr_rows (st : Prisma.Store) v data st' t :
  Prisma.update st v data = inr (st', t) →
  ∃ old on oi od,
    Prisma.findUnique st (Prisma.id t) = Some old
    ∧ Prisma.update_arg Prisma.as_String (Prisma.data_name data) = Some on
    ∧ Prisma.update_arg Prisma.as_String (Prisma.data_info data) = Some oi
    ∧ Prisma.update_arg Prisma.as_Boolean (Prisma.data_isDone data) = Some od
    ∧ t = {| Prisma.id := Prisma.id old;
             Prisma.name := default (Prisma.name old) on;
             Prisma.info := default (Prisma.info old) oi;
             Prisma.isDone := default (Prisma.isDone old) od |}
    ∧ st' = replaced t t st.
Proof.
  unfold Prisma.update. intros H.
  destruct (Prisma.as_Int v) as [n|] eqn:Hv; [|done].
  destruct (Prisma.update_arg _ (Prisma.data_name _)) as [on|]; [|done].
  destruct (Prisma.update_arg _ (Prisma.data_info _)) as [oi|]; [|done].
  destruct (Prisma.update_arg _ (Prisma.data_isDone _)) as [od|]; [|done].
  destruct (Prisma.findUnique st n) as [old|] eqn:Hf; [|done].
  pose proof (findUnique_Some _ _ _ Hf) as [_ Hid].
  simplify_eq. exists old, on, oi, od. cbn. by rewrite Hf.
Qed.

Lemma find_replaced (rs : list Prisma.Task) n t old :
  Prisma.id t = n → List.find (Prisma.has_id n) rs = Some old →
  List.find (Prisma.has_id n)
    ((fun r => if Prisma.has_id n r then t else r) <$> rs) = Some t.
Proof.
  intros Hid. induction rs as [|r rs IH]; [done|]. cbn.
  destruct (Prisma.has_id n r) eqn:Hr.
  - intros _. by rewrite (proj2 (has_id_true n t) Hid).
  - rewrite Hr. apply IH.
Qed.

Lemma update_findUnique (st : Prisma.Store) v data st' t :
  Prisma.update st v data = inr (st', t) →
  Prisma.findUnique st' (Prisma.id t) = Some t.
Proof.
  intros (old & on & oi & od & Hf & _ & _ & _ & _ & ->)%update_inr_rows.
  unfold Prisma.findUnique, replaced in *. cbn. by eapply find_replaced.
Qed.

Lemma replaced_again (rs : list Prisma.Task) n t :
  Prisma.id t = n →
  (fun r => if Prisma.has_id n r then t else r)
    <$> ((fun r => if Prisma.has_id n r then t else r) <$> rs)
  = (fun r => if Prisma.has_id n r then t else r) <$> rs.
Proof.
  intros Hid. rewrite <- list_fmap_compose. apply list_fmap_ext.
  intros i r _. cbn. destruct (Prisma.has_id n r) eqn:Hr.
  - by rewrite (proj2 (has_id_true n t) Hid).
  - by rewrite Hr.
Qed.

Lemma update_twice (st : Prisma.Store) v data st' t :
  Prisma.update st v data = inr (st', t) →
  Prisma.update st' v data = inr (st', t).
Proof.
  intros Hu. pose proof (update_findUnique _ _ _ _ _ Hu) as Hf'.
  pose proof (update_inr _ _ _ _ _ Hu) as (_ & _ & ->).
  apply update_inr_rows in Hu as (old & on & oi & od & Hf & Hn & Hi & Hd & Ht & ->).
  unfold Prisma.update. cbn [Prisma.as_Int]. rewrite Hn, Hi, Hd, Hf'.
  assert ({| Prisma.id := Prisma.id t;
             Prisma.name := from_option (fun x => x) (Prisma.name t) on;
             Prisma.info := from_option (fun x => x) (Prisma.info t) oi;
             Prisma.isDone := from_option (fun x => x) (Prisma.isDone t) od |}
          = t) as Heq.
  { rewrite Ht. cbn. by destruct on, oi, od. }
  cbn zeta. rewrite Heq. do 2 f_equal.
  unfold replaced. cbn. f_equal. by apply replaced_again.
Qed.

(** X5. [POST /update] is idempotent: the same request sent again gets the
    same answer and leaves the state as the first one left it, whether the
    first one succeeded or failed. *)
Theorem update_idempotent w req :
  handler_update (handler_update w req).1 req
  = ((handler_update w req).1, (handler_update w req).2).
Proof.
  rewrite (handler_update_store w).
  destruct (Prisma.update _ _ _) as [err|[st t]] eqn:Hu; cbn [fst snd].
  - by rewrite handler_update_store, Hu.
  - rewrite handler_update_store. cbn [prisma with_prisma].
    by rewrite (update_twice _ _ _ _ _ Hu).
Qed.

(** X6. [POST /update] touches one Task at most: the table keeps its
    [id]s, hence its length, and its sequence, and the log is not written;
    every Task of the table afterwards was there before or is the Task
    that is answered, and every Task from before is still there or has
    given way to the answered Task, which has its [id].  Nothing is said
    of the order of the rows. *)
Theorem update_touches_one_task w req :
  let w' := (handler_update w req).1 in
  let res := (handler_update w req).2 in
  Prisma.next_id (prisma w') = Prisma.next_id (prisma w)
  ∧ console w' = console w
  ∧ ids (prisma w') ≡ₚ ids (prisma w)
  ∧ (∀ r, r ∈ Prisma.rows (prisma w') →
          r ∈ Prisma.rows (prisma w) ∨ sent res = TaskJson r)
  ∧ (∀ r, r ∈ Prisma.rows (prisma w) →
          r ∈ Prisma.rows (prisma w')
          ∨ ∃ t, sent res = TaskJson t ∧ Prisma.id t = Prisma.id r).
Proof.
  rewrite handler_update_store.
  destruct (Prisma.update _ _ _) as [err|[st t]] eqn:Hu; cbn [fst snd].
  - cbn zeta. repeat split; auto.
  - pose proof (update_inr _ _ _ _ _ Hu) as (Hids & Hnext & _).
    cbn zeta. cbn [prisma with_prisma console].
    split; [done|]. split; [done|]. split; [by rewrite Hids|].
    apply update_inr_rows in Hu as (old & _ & _ & _ & _ & _ & _ & _ & _ & ->).
    unfold replaced. cbn. split.
    + intros r (r0 & -> & Hr0)%list_elem_of_fmap.
      destruct (Prisma.has_id (Prisma.id t) r0); auto.
    + intros r Hr.
      destruct (Prisma.has_id (Prisma.id t) r) eqn:Hh.
      * right. exists t. split; [done|]. symmetry. by apply has_id_true.
      * left. apply list_elem_of_fmap. exists r. by rewrite Hh.
Qed.

Lemma findUnique_absent (st : Prisma.Store) n :
  n ∉ ids st → Prisma.findUnique st n = None.
Proof.
  intros Hn. destruct (Prisma.findUnique st n) as [r|] eqn:Hf; [|done].
  apply findUnique_Some in Hf as [Hin <-]. exfalso. apply Hn.
  apply list_elem_of_fmap. eauto.
Qed.

Lemma handler_delete_inv w req w' t :
  handler_delete w req = (w', {| status := 200; sent := TaskJson t |}) →
  Validator.isEmpty (Validator.toString (JS.get (Express.params req) "id")) = false
  ∧ JS.parseInt (JS.get (Express.params req) "id") = JS.Int (Prisma.id t)
  ∧ task_with_id (prisma w) (JS.JNumber (JS.Int (Prisma.id t))) = Some t
  ∧ w' = with_prisma w (removed t (prisma w)).
Proof.
  destruct (Validator.isEmpty
              (Validator.toString (JS.get (Express.params req) "id"))) eqn:Hn.
  - by rewrite handler_delete_invalid.
  - rewrite handler_delete_valid by done.
    destruct (Prisma.delete _ _) as [err|[st t0]] eqn:Hd; [done|].
    intros [= <- <-].
    pose proof (delete_inr _ _ _ _ Hd) as (Hv & Ht & _).
    rewrite Hv in Ht, Hd. rewrite (delete_designated _ _ _ Ht) in Hd.
    injection Hv as Hv. by simplify_eq.
Qed.

(** X7. [GET /delete/:id] is not idempotent: once a delete has answered
    200, the same request sent again is answered 500, the record being
    gone, and changes nothing. *)
Theorem delete_twice w req w' t :
  handler_delete w req = (w', {| status := 200; sent := TaskJson t |}) →
  handler_delete w' req
  = (w', {| status := 500; sent := PrismaErrorJson Prisma.RecordNotFound |}).
Proof.
  intros (Hne & Hp & _ & ->)%handler_delete_inv.
  rewrite handler_delete_valid by done. rewrite Hp.
  unfold Prisma.delete. cbn [Prisma.as_Int prisma with_prisma].
  rewrite findUnique_absent; [done|].
  rewrite (ids_filter (removed t (prisma w)) (prisma w) (Prisma.id t)) by done.
  by intros [? _]%list_elem_of_filter.
Qed.

Lemma delete_twice_witness :
  handler_delete (world_of [] 2) (get_with_id "1")
  = (world_of [] 2,
     {| status := 500; sent := PrismaErrorJson Prisma.RecordNotFound |}).
Proof.
  apply (delete_twice (world_of [milk_done] 2) (get_with_id "1") (world_of [] 2)
           milk_done).
  reflexivity.
Defined.

Lemma filter_all {A} (P : A → Prop) `{∀ x, Decision (P x)} (l : list A) :
  Forall P l → filter P l = l.
Proof.
  induction 1 as [|x l Hx _ IH]; [done|].
  by rewrite filter_cons, decide_True, IH.
Qed.

(** X8. In a table where no two Tasks share an [id], a delete that answers
    200 takes exactly the answered Task out of the table: the Tasks before
    it and after it stay, in their order; the sequence and the log are not
    touched. *)
Theorem delete_takes_one_task w req w' t :
  store_ok (prisma w) →
  handler_delete w req = (w', {| status := 200; sent := TaskJson t |}) →
  ∃ before after,
    Prisma.rows (prisma w) = before ++ t :: after
    ∧ Prisma.rows (prisma w') = before ++ after
    ∧ Prisma.next_id (prisma w') = Prisma.next_id (prisma w)
    ∧ console w' = console w.
Proof.
  intros [Hnd _] (_ & _ & Ht & ->)%handler_delete_inv.
  apply task_with_id_Some in Ht as (_ & Hin & _).
  apply list_elem_of_split in Hin as (before & after & Hrows).
  exists before, after. split; [done|]. split; [|done].
  cbn. unfold ids in Hnd. rewrite Hrows in Hnd |- *.
  rewrite fmap_app, fmap_cons in Hnd.
  apply NoDup_app in Hnd as (_ & Hb & Ha).
  apply NoDup_cons in Ha as [Ha _].
  rewrite filter_app, filter_cons, decide_False by (intros ?; done).
  f_equal; apply filter_all, Forall_forall; intros r Hr Hid.
  - apply (Hb (Prisma.id t)).
    + rewrite <- Hid. by apply list_elem_of_fmap_2.
    + apply elem_of_cons. by left.
  - apply Ha. rewrite <- Hid. by apply list_elem_of_fmap_2.
Qed.

Lemma delete_takes_one_task_witness :
  ∃ before after,
    [milk; task12] = before ++ task12 :: after
    ∧ Prisma.rows (prisma (world_of [milk] 13)) = before ++ after
    ∧ Prisma.next_id (prisma (world_of [milk] 13)) = 13
    ∧ console (world_of [milk] 13) = [].
Proof.
  apply (delete_takes_one_task (world_of [milk; task12] 13) (get_with_id "12")).
  - split.
    + apply (bool_decide_unpack (NoDup (ids (prisma (world_of [milk; task12] 13))))).
      reflexivity.
    + by repeat constructor.
  - reflexivity.
Defined.

Lemma dispatch_next_id r w req :
  Prisma.next_id (prisma w) ≤ Prisma.next_id (prisma (dispatch r w req).1).
Proof.
  destruct (dispatch_cases r w req) as [->|[(?&?&H)|[(?&?&?&H)|(_&?&H)]]].
  - done.
  - apply create_inr in H as (_ & _ & ->). lia.
  - apply update_inr in H as (_ & -> & _). done.
  - apply delete_inr in H as (_ & _ & _ & ->). done.
Qed.

Lemma serve_next_id w calls :
  Prisma.next_id (prisma w) ≤ Prisma.next_id (prisma (serve w calls).1).
Proof.
  revert w. induction calls as [|[r req] calls IH]; intros w; [done|].
  rewrite serve_cons. etrans; [apply (dispatch_next_id r w req)|apply IH].
Qed.

(** X9. The [id]s the service hands out only grow: a Task created after
    another one, whatever was requested in between (deletes included), has
    a greater [id], so that no [id] is ever given twice. *)
Theorem created_ids_grow w req1 w1 t1 calls req2 w2 t2 :
  handler_create w req1 = (w1, {| status := 200; sent := TaskJson t1 |}) →
  handler_create (serve w1 calls).1 req2
  = (w2, {| status := 200; sent := TaskJson t2 |}) →
  Prisma.id t1 < Prisma.id t2.
Proof.
  intros [d1 H1]%handler_create_inv [d2 H2]%handler_create_inv.
  apply create_inr in H1 as (Hid1 & _ & Hn1).
  apply create_inr in H2 as (Hid2 & _ & _).
  pose proof (serve_next_id w1 calls). lia.
Qed.

Lemma created_ids_grow_witness : Prisma.id milk < 2.
Proof.
  pose (second := {| Prisma.id := 2; Prisma.name := "Twelve"; Prisma.info := "";
                     Prisma.isDone := false |}).
  apply (created_ids_grow empty_world buy_milk
           (handler_create empty_world buy_milk).1 milk
           [(GET_delete, get_with_id "1"); (GET_read, get_plain)]
           (post [("name", JS.JString "Twelve")])
           {| prisma := {| Prisma.rows := [second]; Prisma.next_id := 3 |};
              console := [milk; second] |}
           second).
  - reflexivity.
  - reflexivity.
Defined.

Lemma serve_responses w r req calls :
  (serve w ((r, req) :: calls)).2
  = (dispatch r w req).2 :: (serve (dispatch r w req).1 calls).2.
Proof.
  cbn [serve]. destruct (dispatch r w req) as [w1 res].
  cbn [fst snd]. by destruct (serve w1 calls).
Qed.

Lemma dispatch_console r w req :
  console (dispatch r w req).1
  = console w ++ created_by (r, req) (dispatch r w req).2.
Proof.
  unfold created_by. destruct r; cbn [dispatch fst].
  - cbn. by rewrite app_nil_r.
  - destruct (Validator.isEmpty
                (Validator.toString (JS.get (Express.body req) "name"))) eqn:Hn.
    + rewrite handler_create_invalid by done. cbn. by rewrite app_nil_r.
    + rewrite handler_create_valid by done.
      destruct (Prisma.create _ _) as [err|[st t]]; cbn; [by rewrite app_nil_r|done].
  - rewrite handler_update_store.
    destruct (Prisma.update _ _ _) as [err|[st t]]; cbn; by rewrite app_nil_r.
  - destruct (Validator.isEmpty
                (Validator.toString (JS.get (Express.params req) "id"))) eqn:Hn.
    + rewrite handler_delete_invalid by done. cbn. by rewrite app_nil_r.
    + rewrite handler_delete_valid by done.
      destruct (Prisma.delete _ _) as [err|[st t]]; cbn; by rewrite app_nil_r.
Qed.

(** X10. The log of the process holds the Tasks that creates have
    answered, in the order of the requests, and nothing else: no read,
    update or delete and no failed create writes to it. *)
Theorem console_logs_created_tasks w calls :
  console (serve w calls).1
  = console w ++ mjoin (zip_with created_by calls (serve w calls).2).
Proof.
  revert w. induction calls as [|[r req] calls IH]; intros w.
  - cbn. by rewrite app_nil_r.
  - rewrite serve_cons, serve_responses, IH, dispatch_console.
    cbn [zip_with mjoin list_join]. by rewrite app_assoc.
Qed.

Lemma append_assoc_string (s1 s2 s3 : string) :
  (s1 +:+ s2) +:+ s3 = s1 +:+ (s2 +:+ s3).
Proof.
  induction s1 as [|c s1 IH]; [done|].
  change ((String c s1 +:+ s2) +:+ s3) with (String c ((s1 +:+ s2) +:+ s3)).
  by rewrite IH.
Qed.

Lemma all_chars_app p (s1 s2 : string) :
  all_chars p (s1 +:+ s2) = all_chars p s1 && all_chars p s2.
Proof.
  induction s1 as [|c s1 IH]; [done|].
  change (String c s1 +:+ s2) with (String c (s1 +:+ s2)).
  cbn [all_chars]. by rewrite IH, andb_assoc.
Qed.

Lemma decimal_from_app a (s1 s2 : string) :
  decimal_from a (s1 +:+ s2) = decimal_from (decimal_from a s1) s2.
Proof.
  revert a. induction s1 as [|c s1 IH]; intros a; [done|].
  change (String c s1 +:+ s2) with (String c (s1 +:+ s2)).
  cbn [decimal_from]. apply IH.
Qed.

Lemma pretty_N_char_digit (d : N) :
  (d < 10)%N →
  is_decimal_digit (pretty_N_char d) = true
  ∧ Z.of_nat (nat_of_ascii (pretty_N_char d)) - 48 = Z.of_N d.
Proof.
  intros Hd.
  assert (d = 0 ∨ d = 1 ∨ d = 2 ∨ d = 3 ∨ d = 4 ∨ d = 5 ∨ d = 6 ∨ d = 7
          ∨ d = 8 ∨ d = 9)%N as H by lia.
  repeat (destruct H as [->|H]; [done|]). by subst.
Qed.

(** The digits [pretty] writes in front of [s] for the number [x]. *)
Lemma pretty_N_go_decimal (x : N) (s : string) :
  ∃ ds k,
    pretty_N_go x s = ds +:+ s
    ∧ all_chars is_decimal_digit ds = true
    ∧ 0 ≤ k
    ∧ (∀ a, decimal_from a ds = a * 10 ^ k + Z.of_N x)
    ∧ ((0 < x)%N → ds ≠ "").
Proof.
  revert s. induction (N.lt_wf_0 x) as [x _ IH]; intros s.
  destruct (decide (x = 0)%N) as [->|Hx].
  - exists "", 0. rewrite pretty_N_go_0.
    repeat split; try done; intros; cbn; lia.
  - rewrite pretty_N_go_step by lia.
    destruct (IH (x `div` 10)%N) with
      (s := String (pretty_N_char (x `mod` 10)) s)
      as (ds & k & Heq & Hds & Hk & Hval & _).
    { apply N.div_lt; lia. }
    destruct (pretty_N_char_digit (x `mod` 10)%N) as [Hc Hcv].
    { apply N.mod_lt. lia. }
    exists (ds +:+ String (pretty_N_char (x `mod` 10)) ""), (k + 1).
    split; [by rewrite append_assoc_string|].
    split; [rewrite all_chars_app, Hds; cbn; by rewrite Hc|].
    split; [lia|]. split.
    + intros a. rewrite decimal_from_app, Hval. cbn. rewrite Hcv.
      rewrite Z.pow_add_r, Z.pow_1_r by lia.
      rewrite N2Z.inj_div, N2Z.inj_mod.
      pose proof (Z.div_mod (Z.of_N x) 10). lia.
    + intros _. by destruct ds.
Qed.

Lemma digits_not_hex_marked (s : string) :
  all_chars is_decimal_digit s = true → hex_marked s = false.
Proof.
  unfold hex_marked. intros H.
  repeat case_match; simplify_eq/=; try done.
Qed.

(** [parseInt] reads back the integer that [ToString] has written. *)
Lemma parseInt_pretty (z : Z) : JS.parseInt_string (pretty z) = JS.Int z.
Proof.
  assert (Hp : ∀ p : positive, ∃ ds,
    pretty (N.pos p) = ds +:+ "" ∧ ds ≠ ""
    ∧ all_chars is_decimal_digit ds = true
    ∧ decimal_value ds = Z.pos p).
  { intros p. unfold pretty, pretty_N. rewrite decide_False by done.
    destruct (pretty_N_go_decimal (N.pos p) "") as (ds & k & Heq & Hds & _ & Hval & Hne).
    exists ds. split; [done|]. split; [by apply Hne|]. split; [done|].
    unfold decimal_value. rewrite Hval. cbn. lia. }
  destruct z as [|p|p]; [done|..].
  - destruct (Hp p) as (ds & Heq & Hne & Hds & Hval).
    change (pretty (Z.pos p)) with (pretty (N.pos p)). rewrite Heq.
    rewrite parseInt_decimal_prefix; [by rewrite Hval|done..|].
    apply digits_not_hex_marked. by rewrite all_chars_app, Hds.
  - destruct (Hp p) as (ds & Heq & Hne & Hds & Hval).
    change (pretty (Z.neg p)) with (String "-" (pretty (N.pos p))).
    rewrite Heq. unfold JS.parseInt_string.
    rewrite trim_start_ascii by done.
    cbn [JS.strip_sign]. cbn match.
    rewrite strip_radix_prefix_decimal
      by (apply digits_not_hex_marked; by rewrite all_chars_app, Hds).
    rewrite parse_digits_decimal by done.
    destruct ds as [|c ds]; [done|]. cbn [from_option].
    fold (decimal_value (String c ds)). rewrite Hval. f_equal.
Qed.

(** X11. The [id] of a Task as a response prints it, put in the path of
    [GET /delete/:id], designates that Task: the delete is answered 200
    with the Task and takes it out of the table. *)
Theorem delete_by_printed_id w req t :
  Express.params req !! "id" = Some (JS.JString (pretty (Prisma.id t))) →
  task_with_id (prisma w) (JS.JNumber (JS.Int (Prisma.id t))) = Some t →
  handler_delete w req
  = (with_prisma w (removed t (prisma w)),
     {| status := 200; sent := TaskJson t |}).
Proof.
  intros Hid Ht.
  assert (Hp : JS.parseInt (JS.get (Express.params req) "id")
               = JS.Int (Prisma.id t)).
  { rewrite (get_Some _ _ _ Hid). apply parseInt_pretty. }
  rewrite handler_delete_valid by by eapply parseInt_Int_not_empty.
  by rewrite Hp, (delete_designated _ _ _ Ht).
Qed.

Lemma delete_by_printed_id_witness :
  handler_delete (world_of [milk; task12] 13) (get_with_id "12")
  = (world_of [milk] 13, {| status := 200; sent := TaskJson task12 |}).
Proof.
  apply (delete_by_printed_id (world_of [milk; task12] 13) (get_with_id "12")
           task12).
  - reflexivity.
  - reflexivity.
Defined.

Lemma handler_update_inv w req w' t :
  handler_update w req = (w', {| status := 200; sent := TaskJson t |}) →
  ∃ v data, Prisma.update (prisma w) v data = inr (prisma w', t).
Proof.
  rewrite handler_update_store.
  destruct (Prisma.update _ _ _) as [err|[st t0]] eqn:Hu; [done|].
  intros [= <- <-]. eauto.
Qed.

(** X12. A delete that follows an update answers the Task as the update
    left it: once an update has answered a Task, a delete whose [id]
    parses to the [id] of that Task is answered 200 with the same Task. *)
Theorem delete_answers_last_update w ureq w1 t dreq :
  handler_update w ureq = (w1, {| status := 200; sent := TaskJson t |}) →
  JS.parseInt (JS.get (Express.params dreq) "id") = JS.Int (Prisma.id t) →
  handler_delete w1 dreq
  = (with_prisma w1 (removed t (prisma w1)),
     {| status := 200; sent := TaskJson t |}).
Proof.
  intros (v & data & Hu)%handler_update_inv Hp.
  apply update_findUnique in Hu.
  rewrite handler_delete_valid by by eapply parseInt_Int_not_empty.
  rewrite Hp. by rewrite (delete_designated _ _ t).
Qed.

Lemma delete_answers_last_update_witness :
  handler_delete (world_of [milk_done] 2) (get_with_id "1")
  = (world_of [] 2, {| status := 200; sent := TaskJson milk_done |}).
Proof.
  apply (delete_answers_last_update (world_of [milk] 2) update_milk
           (world_of [milk_done] 2) milk_done (get_with_id "1")).
  - reflexivity.
  - reflexivity.
Defined.

(** X13. A path segment that starts with [0x] or [0X] is read in radix 16:
    followed by hexadecimal digits it designates the Task whose [id] those
    digits denote, and an existing one is deleted and answered with 200;
    followed by no hexadecimal digit it parses to [NaN], although it starts
    with the decimal digit 0, and the answer is 500. *)
Theorem delete_reads_hexadecimal w req (x : ascii) (hs rest : string) :
  Express.params req !! "id"
  = Some (JS.JString (String "0" (String x (hs +:+ rest)))) →
  x = "x"%char ∨ x = "X"%char →
  all_chars is_hex_digit hs = true →
  starts_with_hex_digit rest = false →
  (hs = "" →
   handler_delete w req
   = (w, {| status := 500; sent := PrismaErrorJson Prisma.ValidationError |}))
  ∧ (hs ≠ "" →
     ∀ t, task_with_id (prisma w) (JS.JNumber (JS.Int (hex_value hs))) = Some t →
          handler_delete w req
          = (with_prisma w (removed t (prisma w)),
             {| status := 200; sent := TaskJson t |})).
Proof.
  intros Hid Hx Hhs Hrest.
  assert (Hp : JS.parseInt (JS.get (Express.params req) "id")
               = match hs with
                 | EmptyString => JS.NaN
                 | _ => JS.Int (hex_value hs)
                 end).
  { rewrite (get_Some _ _ _ Hid). unfold JS.parseInt, JS.parseInt_string.
    cbn [JS.ToString]. rewrite trim_start_ascii by done.
    change (JS.strip_sign (String "0" (String x (hs +:+ rest))))
      with (1, String "0" (String x (hs +:+ rest))).
    cbn match.
    assert (JS.strip_radix_prefix (String "0" (String x (hs +:+ rest)))
            = (16, hs +:+ rest)) as -> by by destruct Hx as [->| ->].
    rewrite parse_digits_hex by done.
    destruct hs; [done|]. cbn [from_option]. unfold hex_value. f_equal. lia. }
  rewrite handler_delete_valid
    by (rewrite (get_Some _ _ _ Hid); by apply isEmpty_String).
  rewrite Hp. split.
  - by intros ->.
  - intros Hne t Ht. destruct hs; [done|].
    by rewrite (delete_designated _ _ _ Ht).
Qed.

Lemma delete_reads_hexadecimal_witness :
  handler_delete (world_of [milk; task12] 13) (get_with_id "0xCz")
  = (world_of [milk] 13, {| status := 200; sent := TaskJson task12 |})
  ∧ handler_delete (world_of [milk; task12] 13) (get_with_id "0xz")
    = (world_of [milk; task12] 13,
       {| status := 500; sent := PrismaErrorJson Prisma.ValidationError |}).
Proof.
  split.
  - refine (proj2 (delete_reads_hexadecimal (world_of [milk; task12] 13)
                     (get_with_id "0xCz") "x" "C" "z" _ _ _ _) _ task12 _);
      first [reflexivity | discriminate | by left].
  - refine (proj1 (delete_reads_hexadecimal (world_of [milk; task12] 13)
                     (get_with_id "0xz") "x" "" "z" _ _ _ _) _);
      first [reflexivity | by left].
Defined.

(** X14. In [POST /create] a [name] that is not empty for the validator
    and is not a string -- a number or a boolean -- passes the validation
    and is refused by the store: the answer is 500, not the 404 of a
    validation failure, and nothing is stored. *)
Theorem create_name_not_string w req :
  blank (JS.get (Express.body req) "name") = false →
  has_type type_string (JS.get (Express.body req) "name") = false →
  handler_create w req
  = (w, {| status := 500; sent := PrismaErrorJson Prisma.ValidationError |}).
Proof.
  intros Hb Hty. rewrite handler_create_valid by by rewrite isEmpty_blank.
  unfold Prisma.create. cbn [Prisma.data_name].
  by destruct (JS.get (Express.body req) "name") as [| |?|[|?]|?].
Qed.

Lemma create_name_not_string_witness :
  handler_create empty_world (post [("name", JS.JBoolean true)])
  = (empty_world,
     {| status := 500; sent := PrismaErrorJson Prisma.ValidationError |}).
Proof.
  apply (create_name_not_string empty_world (post [("name", JS.JBoolean true)])).
  - reflexivity.
  - reflexivity.
Defined.

Lemma dispatch_no_task r w req :
  (∀ t, sent (dispatch r w req).2 ≠ TaskJson t) → (dispatch r w req).1 = w.
Proof.
  destruct r; cbn [dispatch].
  - done.
  - destruct (Validator.isEmpty
                (Validator.toString (JS.get (Express.body req) "name"))) eqn:Hn.
    + by rewrite handler_create_invalid.
    + rewrite handler_create_valid by done.
      destruct (Prisma.create _ _) as [err|[st t]]; [done|].
      intros H. by destruct (H t).
  - rewrite handler_update_store.
    destruct (Prisma.update _ _ _) as [err|[st t]]; [done|].
    intros H. by destruct (H t).
  - destruct (Validator.isEmpty
                (Validator.toString (JS.get (Express.params req) "id"))) eqn:Hn.
    + by rewrite handler_delete_invalid.
    + rewrite handler_delete_valid by done.
      destruct (Prisma.delete _ _) as [err|[st t]]; [done|].
      intros H. by destruct (H t).
Qed.

(** X15. Requests that are not answered with a Task leave no trace: the
    state a sequence of requests ends in -- table, sequence and log -- is
    the one reached by serving only those of its requests that were
    answered with a Task, the reads and the requests that failed being
    left out. *)
Theorem failed_requests_leave_no_trace w calls :
  (serve w (answered_with_task w calls)).1 = (serve w calls).1.
Proof.
  revert w. induction calls as [|[r req] calls IH]; intros w; [done|].
  rewrite serve_cons. cbn [answered_with_task].
  pose proof (dispatch_no_task r w req) as Hno.
  destruct (dispatch r w req) as [w1 res] eqn:Hd. cbn [fst snd] in *.
  destruct (sent res) as [t|ts|errors|err] eqn:Hs.
  - rewrite serve_cons, Hd. apply IH.
  - rewrite <- (Hno ltac:(done)) at 1. apply IH.
  - rewrite <- (Hno ltac:(done)) at 1. apply IH.
  - rewrite <- (Hno ltac:(done)) at 1. apply IH.
Qed.

End outcomes.
